(** * Content Item Store: a shallow embedding of [backend/main.py]

    The handlers of the FastAPI application are embedded as computations in
    a small state-and-exception monad.  The persisted state is the
    [content_items] table together with the files of the [uploads]
    directory; the clock, the uuid generator and the ISO-8601 parser of the
    Python runtime are inputs of the model. *)

From Stdlib Require Import ZArith NArith String Ascii List Bool Lia Sorted Permutation.
From stdpp Require Import base option list gmap strings.

Local Open Scope Z_scope.
Local Open Scope string_scope.

(** ** Python strings *)

Module Py.

(** [s.replace(old, new)] for a one-character [old]. *)
Fixpoint replace (old : ascii) (new : string) (s : string) : string :=
  match s with
  | EmptyString => EmptyString
  | String c r =>
      if Ascii.eqb c old then String.append new (replace old new r)
      else String c (replace old new r)
  end.

(** [s.startswith(p)]. *)
Definition startswith (s p : string) : bool := String.prefix p s.

(** Truth value of a [str]. *)
Definition nonempty (s : string) : bool :=
  match s with EmptyString => false | String _ _ => true end.

(** Truth value of an [Optional[str]]: [None] and [''] are falsy. *)
Definition truthy (o : option string) : bool :=
  match o with Some s => nonempty s | None => false end.

(** [c in s] for a character [c]. *)
Fixpoint occurs (c : ascii) (s : string) : bool :=
  match s with
  | EmptyString => false
  | String a r => Ascii.eqb a c || occurs c r
  end.

(** [s.rfind(c)], as an index from [i]; [last] is the answer so far. *)
Fixpoint rfind_from (c : ascii) (s : string) (i last : Z) : Z :=
  match s with
  | EmptyString => last
  | String a r => rfind_from c r (i + 1) (if Ascii.eqb a c then i else last)
  end.

Definition rfind (c : ascii) (s : string) : Z := rfind_from c s 0 (-1).

(** The slices [s[n:]] and [s[:n]]. *)
Fixpoint slice_from (n : nat) (s : string) : string :=
  match n, s with
  | O, _ => s
  | S n', String _ r => slice_from n' r
  | S _, EmptyString => EmptyString
  end.

Fixpoint slice_to (n : nat) (s : string) : string :=
  match n, s with
  | O, _ => EmptyString
  | S n', String c r => String c (slice_to n' r)
  | S _, EmptyString => EmptyString
  end.

(** The loop of [genericpath._splitext]: skip the leading dots of the last
    path component. *)
Fixpoint splitext_loop (p : string) (dotIndex : Z) (steps : nat)
    (filenameIndex : Z) : string * string :=
  match steps with
  | O => (p, EmptyString)
  | S k =>
      match String.get (Z.to_nat filenameIndex) p with
      | Some c =>
          if Ascii.eqb c "." then splitext_loop p dotIndex k (filenameIndex + 1)
          else (slice_to (Z.to_nat dotIndex) p, slice_from (Z.to_nat dotIndex) p)
      | None => (p, EmptyString)
      end
  end.

(** [os.path.splitext] on a POSIX path. *)
Definition splitext (p : string) : string * string :=
  let sepIndex := rfind "/" p in
  let dotIndex := rfind "." p in
  if (sepIndex <? dotIndex)%Z then
    splitext_loop p dotIndex (Z.to_nat (dotIndex - (sepIndex + 1))) (sepIndex + 1)
  else (p, EmptyString).

(** [os.path.basename] on a POSIX path: what follows the last slash. *)
Definition basename (p : string) : string :=
  slice_from (Z.to_nat (rfind "/" p + 1)) p.

(** [repr] of a list of strings that need no escaping. *)
Definition repr_str (s : string) : string := "'" ++ s ++ "'".

Fixpoint join (sep : string) (l : list string) : string :=
  match l with
  | [] => EmptyString
  | [x] => x
  | x :: (_ :: _) as r => x ++ sep ++ join sep r
  end.

Definition repr_list (l : list string) : string :=
  "[" ++ join ", " (map repr_str l) ++ "]".

End Py.

(** ** UUIDs *)

Definition hexdigit (d : N) : ascii :=
  match d with
  | 0 => "0" | 1 => "1" | 2 => "2" | 3 => "3" | 4 => "4" | 5 => "5"
  | 6 => "6" | 7 => "7" | 8 => "8" | 9 => "9" | 10 => "a" | 11 => "b"
  | 12 => "c" | 13 => "d" | 14 => "e" | _ => "f"
  end%N%char.

(** ['%0<width>x' % n], the low [width] hexadecimal digits of [n]. *)
Fixpoint hex (width : nat) (n : N) : string :=
  match width with
  | O => EmptyString
  | S w => hex w (n / 16)%N ++ String (hexdigit (n mod 16)%N) EmptyString
  end.

(** [str(u)] for a [uuid.UUID] whose 128-bit integer value is [u]. *)
Definition str_uuid (u : N) : string :=
  let h := hex 32 u in
  substring 0 8 h ++ "-" ++ substring 8 4 h ++ "-" ++ substring 12 4 h
    ++ "-" ++ substring 16 4 h ++ "-" ++ substring 20 12 h.

(** ** Data model *)

(** A naive [datetime]: microseconds of wall-clock time since the epoch. *)
Definition datetime := Z.

(** A row of the [content_items] table. *)
Record ContentItem := {
  id : Z;
  title : string;
  content : string;
  excerpt : option string;
  category : string;
  image_url : option string;
  author : string;
  published : bool;
  created_at : datetime;
  updated_at : datetime;
  event_date : option datetime;
  tags : option string
}.

(** Attribute assignment on a mapped object, one setter per column that
    [update_content] writes. *)
Definition set_title (v : string) (r : ContentItem) : ContentItem :=
  {| id := id r; title := v; content := content r; excerpt := excerpt r;
     category := category r; image_url := image_url r; author := author r;
     published := published r; created_at := created_at r;
     updated_at := updated_at r; event_date := event_date r; tags := tags r |}.

Definition set_content (v : string) (r : ContentItem) : ContentItem :=
  {| id := id r; title := title r; content := v; excerpt := excerpt r;
     category := category r; image_url := image_url r; author := author r;
     published := published r; created_at := created_at r;
     updated_at := updated_at r; event_date := event_date r; tags := tags r |}.

Definition set_excerpt (v : option string) (r : ContentItem) : ContentItem :=
  {| id := id r; title := title r; content := content r; excerpt := v;
     category := category r; image_url := image_url r; author := author r;
     published := published r; created_at := created_at r;
     updated_at := updated_at r; event_date := event_date r; tags := tags r |}.

Definition set_author (v : string) (r : ContentItem) : ContentItem :=
  {| id := id r; title := title r; content := content r; excerpt := excerpt r;
     category := category r; image_url := image_url r; author := v;
     published := published r; created_at := created_at r;
     updated_at := updated_at r; event_date := event_date r; tags := tags r |}.

Definition set_published (v : bool) (r : ContentItem) : ContentItem :=
  {| id := id r; title := title r; content := content r; excerpt := excerpt r;
     category := category r; image_url := image_url r; author := author r;
     published := v; created_at := created_at r;
     updated_at := updated_at r; event_date := event_date r; tags := tags r |}.

Definition set_tags (v : option string) (r : ContentItem) : ContentItem :=
  {| id := id r; title := title r; content := content r; excerpt := excerpt r;
     category := category r; image_url := image_url r; author := author r;
     published := published r; created_at := created_at r;
     updated_at := updated_at r; event_date := event_date r; tags := v |}.

Definition set_event_date (v : option datetime) (r : ContentItem) : ContentItem :=
  {| id := id r; title := title r; content := content r; excerpt := excerpt r;
     category := category r; image_url := image_url r; author := author r;
     published := published r; created_at := created_at r;
     updated_at := updated_at r; event_date := v; tags := tags r |}.

Definition set_image_url (v : option string) (r : ContentItem) : ContentItem :=
  {| id := id r; title := title r; content := content r; excerpt := excerpt r;
     category := category r; image_url := v; author := author r;
     published := published r; created_at := created_at r;
     updated_at := updated_at r; event_date := event_date r; tags := tags r |}.

Definition set_updated_at (v : datetime) (r : ContentItem) : ContentItem :=
  {| id := id r; title := title r; content := content r; excerpt := excerpt r;
     category := category r; image_url := image_url r; author := author r;
     published := published r; created_at := created_at r;
     updated_at := v; event_date := event_date r; tags := tags r |}.

Definition opt_eqb {A} (eqb : A -> A -> bool) (x y : option A) : bool :=
  match x, y with
  | Some a, Some b => eqb a b
  | None, None => true
  | _, _ => false
  end.

(** Column-wise comparison of a mapped object with its loaded state: the
    unit of work emits no UPDATE when every attribute compares equal. *)
Definition item_eqb (a b : ContentItem) : bool :=
  (id a =? id b)%Z && String.eqb (title a) (title b)
  && String.eqb (content a) (content b)
  && opt_eqb String.eqb (excerpt a) (excerpt b)
  && String.eqb (category a) (category b)
  && opt_eqb String.eqb (image_url a) (image_url b)
  && String.eqb (author a) (author b)
  && Bool.eqb (published a) (published b)
  && (created_at a =? created_at b)%Z && (updated_at a =? updated_at b)%Z
  && opt_eqb Z.eqb (event_date a) (event_date b)
  && opt_eqb String.eqb (tags a) (tags b).

(** A multipart file part, [fastapi.UploadFile]. *)
Record UploadFile := {
  filename : option string;
  content_type : option string;
  file : string
}.

(** The persisted state: the table in rowid order and the regular files of
    the [uploads] directory, by name. *)
Record World := {
  content_items : list ContentItem;
  uploads : gmap string string
}.

(** What the runtime supplies to one request: the successive readings of
    [datetime.utcnow()] and the successive values of [uuid.uuid4()]. *)
Record Env := {
  utcnow : nat -> datetime;
  uuid4 : nat -> N
}.

(** ** Exceptions and the handler monad *)

Inductive Exception :=
| HTTPException (status_code : Z) (detail : string)
| AttributeError (msg : string)
| TypeError (msg : string).

(** The two error kinds of the store's contract, by HTTP status. *)
Definition ValidationError (e : Exception) : Prop :=
  exists detail, e = HTTPException 400 detail.

Definition NotFoundError (e : Exception) : Prop :=
  exists detail, e = HTTPException 404 detail.

Inductive Result (A : Type) :=
| Return (a : A)
| Raise (e : Exception).
Arguments Return {A} a.
Arguments Raise {A} e.

(** State of a request in flight: the persisted world and how many clock
    readings and uuids the request has consumed. *)
Record St := {
  world : World;
  clock_reads : nat;
  uuid_draws : nat
}.

Definition M (A : Type) : Type := Env -> St -> Result A * St.

Definition ret {A} (a : A) : M A := fun _ s => (Return a, s).

Definition bind {A B} (m : M A) (k : A -> M B) : M B :=
  fun env s =>
    match m env s with
    | (Return a, s') => k a env s'
    | (Raise e, s') => (Raise e, s')
    end.

Definition raise {A} (e : Exception) : M A := fun _ s => (Raise e, s).

Declare Scope handler_scope.
Delimit Scope handler_scope with handler.
Notation "x <- m ;; k" := (bind m (fun x => k))
  (at level 100, m at next level, right associativity) : handler_scope.
Notation "m ;; k" := (bind m (fun _ => k))
  (at level 100, right associativity) : handler_scope.
Local Open Scope handler_scope.

(** [if c: body], for a body run for its effects. *)
Definition when (c : bool) (m : M unit) : M unit :=
  if c then m else ret tt.

Definition get_world : M World := fun _ s => (Return (world s), s).

Definition put_world (w : World) : M unit :=
  fun _ s => (Return tt, {| world := w; clock_reads := clock_reads s;
                            uuid_draws := uuid_draws s |}).

(** [datetime.utcnow()]: the next reading of the clock. *)
Definition now : M datetime :=
  fun env s => (Return (utcnow env (clock_reads s)),
                {| world := world s; clock_reads := S (clock_reads s);
                   uuid_draws := uuid_draws s |}).

(** [uuid.uuid4()]. *)
Definition new_uuid : M N :=
  fun env s => (Return (uuid4 env (uuid_draws s)),
                {| world := world s; clock_reads := clock_reads s;
                   uuid_draws := S (uuid_draws s) |}).

(** A request runs in a session of its own ([get_db]); what is left of it
    when the handler returns or raises is the persisted world. *)
Definition run {A} (m : M A) (env : Env) (w : World) : Result A * World :=
  let '(r, s) := m env {| world := w; clock_reads := 0; uuid_draws := 0 |} in
  (r, world s).

(** ** The session and the upload directory *)

(** [db.query(ContentItem).filter(ContentItem.id == item_id).first()], for
    an [item_id] that can be bound to the statement (see [int64]
    below). *)
Definition query_first_by_id (item_id : Z) : M (option ContentItem) :=
  w <- get_world ;;
  ret (head (List.filter (fun r => (id r =? item_id)%Z) (content_items w))).

(** The rowid SQLite gives to the next row of an [INTEGER PRIMARY KEY]
    table: 1 in an empty table, else one more than the largest one. *)
Definition next_rowid (rows : list ContentItem) : Z :=
  match map id rows with
  | [] => 1
  | i :: rest => 1 + fold_right Z.max i rest
  end.

(** [db.add(db_item); db.commit(); db.refresh(db_item)] for the object
    built by [create_content].  The INSERT assigns the rowid and runs the
    column defaults of [created_at] and [updated_at], each of which is a
    call of its own to [datetime.utcnow]. *)
Definition db_add_commit_refresh (title content : string)
    (excerpt : option string) (category : string) (image_url : option string)
    (author : string) (published : bool) (event_date : option datetime)
    (tags : option string) : M ContentItem :=
  w <- get_world ;;
  created <- now ;;
  updated <- now ;;
  let row :=
    {| id := next_rowid (content_items w); title := title; content := content;
       excerpt := excerpt; category := category; image_url := image_url;
       author := author; published := published; created_at := created;
       updated_at := updated; event_date := event_date; tags := tags |} in
  put_world {| content_items := content_items w ++ [row];
               uploads := uploads w |} ;;
  ret row.

(** [db.commit(); db.refresh(db_item)] for an object [db_item] loaded as
    [loaded] and then assigned to.  No UPDATE is emitted when nothing
    differs; an UPDATE that does not carry [updated_at] (the assigned value
    equals the loaded one) takes it from the column's [onupdate]. *)
Definition db_commit_refresh (loaded db_item : ContentItem) : M ContentItem :=
  if item_eqb db_item loaded then ret loaded
  else
    row <- (if (updated_at db_item =? updated_at loaded)%Z
            then t <- now ;; ret (set_updated_at t db_item)
            else ret db_item) ;;
    w <- get_world ;;
    put_world {| content_items :=
                   map (fun r => if (id r =? id row)%Z then row else r)
                       (content_items w);
                 uploads := uploads w |} ;;
    ret row.

(** [db.delete(db_item); db.commit()]. *)
Definition db_delete_commit (db_item : ContentItem) : M unit :=
  w <- get_world ;;
  put_world {| content_items :=
                 List.filter (fun r => negb (id r =? id db_item)%Z)
                             (content_items w);
               uploads := uploads w |}.

(** [(UPLOAD_DIR / name).exists()]. *)
Definition path_exists (name : string) : M bool :=
  w <- get_world ;;
  ret (match uploads w !! name with Some _ => true | None => false end).

(** [(UPLOAD_DIR / name).unlink()]. *)
Definition unlink (name : string) : M unit :=
  w <- get_world ;;
  put_world {| content_items := content_items w;
               uploads := delete name (uploads w) |}.

(** [with (UPLOAD_DIR / name).open("wb") as buffer: copyfileobj(data, buffer)],
    for a name under which the file can be created (see [file_name_ok]
    below). *)
Definition write_file (name data : string) : M unit :=
  w <- get_world ;;
  put_world {| content_items := content_items w;
               uploads := <[name := data]> (uploads w) |}.

(** Removal of the file behind a truthy [image_url], if it is there. *)
Definition unlink_image (url : option string) : M unit :=
  match url with
  | Some u =>
      if Py.nonempty u then
        let name := Py.basename u in
        there <- path_exists name ;;
        when there (unlink name)
      else ret tt
  | None => ret tt
  end.

(** ** Helper functions *)

Definition save_upload_file (upload_file : UploadFile) : M string :=
  match filename upload_file with
  | None =>
      raise (TypeError "expected str, bytes or os.PathLike object, not NoneType")
  | Some name =>
      let file_extension := snd (Py.splitext name) in
      u <- new_uuid ;;
      let file_name := str_uuid u ++ file_extension in
      write_file file_name (file upload_file) ;;
      ret ("/uploads/" ++ file_name)
  end.

(** [f.content_type.startswith(p)]; the attribute may be [None]. *)
Definition content_type_startswith (f : UploadFile) (p : string) : M bool :=
  match content_type f with
  | None => raise (AttributeError "'NoneType' object has no attribute 'startswith'")
  | Some ct => ret (Py.startswith ct p)
  end.

(** The test [image and image.filename]. *)
Definition uploaded (image : option UploadFile) : option UploadFile :=
  match image with
  | Some f => if Py.truthy (filename f) then Some f else None
  | None => None
  end.

Definition require_image (f : UploadFile) : M unit :=
  is_image <- content_type_startswith f "image/" ;;
  when (negb is_image) (raise (HTTPException 400 "File must be an image")).

(** [try: m except Exception as e: h e]. *)
Definition try_except {A} (m : M A) (h : Exception -> M A) : M A :=
  fun env s =>
    match m env s with
    | (Raise e, s') => h e env s'
    | r => r
    end.

(** [str(e)] for the exceptions [save_upload_file] can raise. *)
Definition str_exception (e : Exception) : string :=
  match e with
  | HTTPException _ detail => detail
  | AttributeError msg => msg
  | TypeError msg => msg
  end.

(** ** Ordering of a query *)

Section OrderBy.
Context {A : Type} (key : A -> Z).

(** Insertion of a row that comes earlier in scan order than the rows of
    [l]: it passes only rows with a strictly larger key. *)
Fixpoint insert_desc (x : A) (l : list A) : list A :=
  match l with
  | [] => [x]
  | y :: l' => if (key x <? key y)%Z then y :: insert_desc x l' else x :: l
  end.

(** [ORDER BY key DESC] as SQLite evaluates it: its sorter compares the
    key and then the scan sequence, so rows with equal keys keep their
    scan (rowid) order. *)
Fixpoint order_by_desc (l : list A) : list A :=
  match l with
  | [] => []
  | x :: l' => insert_desc x (order_by_desc l')
  end.
End OrderBy.

(** [before x y l]: an occurrence of [x] in [l] is followed, later in [l],
    by an occurrence of [y]. *)
Inductive before {A : Type} (x y : A) : list A -> Prop :=
| before_head (l : list A) : In y l -> before x y (x :: l)
| before_tail (z : A) (l : list A) : before x y l -> before x y (z :: l).

(** [OFFSET n] and [LIMIT n] of SQLite, for an [n] that can be bound to the
    statement (see [int64] below): a negative offset is no offset, a
    negative limit is no limit. *)
Definition sql_offset {A} (n : Z) (l : list A) : list A := skipn (Z.to_nat n) l.

Definition sql_limit {A} (n : Z) (l : list A) : list A :=
  if (n <? 0)%Z then l else firstn (Z.to_nat n) l.

(** ** An ISO-8601 parser

    The handlers are parametrised by [datetime.fromisoformat].  [Iso] is an
    instance to run them with: it reads [YYYY-MM-DD], optionally followed by
    a separator character, [HH:MM] or [HH:MM:SS] and a [+HH:MM] or [-HH:MM]
    offset, and yields the wall-clock value that the [DateTime] column
    keeps (the column drops the offset). *)

Module Iso.

Definition digit (c : ascii) : option Z :=
  let n := Z.of_N (N_of_ascii c) in
  if ((48 <=? n) && (n <=? 57))%Z then Some (n - 48) else None.

Fixpoint digits (n : nat) (s : string) (acc : Z) : option (Z * string) :=
  match n, s with
  | O, _ => Some (acc, s)
  | S k, String c r => d ← digit c; digits k r (10 * acc + d)
  | S _, EmptyString => None
  end.

Definition expect (c : ascii) (s : string) : option string :=
  match s with
  | String a r => if Ascii.eqb a c then Some r else None
  | EmptyString => None
  end.

Definition is_leap (y : Z) : bool :=
  ((y mod 4 =? 0) && (negb (y mod 100 =? 0) || (y mod 400 =? 0)))%Z.

Definition days_in_month (y m : Z) : Z :=
  if (m =? 2)%Z then (if is_leap y then 29 else 28)
  else if ((m =? 4) || (m =? 6) || (m =? 9) || (m =? 11))%Z then 30
  else 31.

(** Days from 1970-01-01 to the given civil date. *)
Definition days_from_civil (y m d : Z) : Z :=
  let y := if (m <=? 2)%Z then y - 1 else y in
  let era := y / 400 in
  let yoe := y - era * 400 in
  let doy := (153 * (if (2 <? m)%Z then m - 3 else m + 9) + 2) / 5 + d - 1 in
  let doe := yoe * 365 + yoe / 4 - yoe / 100 + doy in
  era * 146097 + doe - 719468.

(** Seconds into the day, and the rest of the input. *)
Definition time_of_day (s : string) : option (Z * string) :=
  '(h, s) ← digits 2 s 0;
  s ← expect ":" s;
  '(mi, s) ← digits 2 s 0;
  '(sec, s) ← match expect ":" s with
               | Some s' => digits 2 s' 0
               | None => Some (0, s)
               end;
  if ((h <? 24) && (mi <? 60) && (sec <? 60))%Z
  then Some (h * 3600 + mi * 60 + sec, s) else None.

(** The end of the input, or a UTC offset and then the end. *)
Definition utc_offset (s : string) : option unit :=
  match s with
  | EmptyString => Some tt
  | String c r =>
      if Ascii.eqb c "+" || Ascii.eqb c "-" then
        '(h, r) ← digits 2 r 0;
        r ← expect ":" r;
        '(mi, r) ← digits 2 r 0;
        if (negb (Py.nonempty r) && (h <? 24) && (mi <? 60))%Z
        then Some tt else None
      else None
  end.

Definition fromisoformat (s : string) : option datetime :=
  '(y, s) ← digits 4 s 0;
  s ← expect "-" s;
  '(m, s) ← digits 2 s 0;
  s ← expect "-" s;
  '(d, s) ← digits 2 s 0;
  if ((1 <=? y) && (1 <=? m) && (m <=? 12) && (1 <=? d)
      && (d <=? days_in_month y m))%Z then
    let day := days_from_civil y m d * 86400 in
    match s with
    | EmptyString => Some (day * 1000000)
    | String _ s =>
        '(t, s) ← time_of_day s;
        _ ← utc_offset s;
        Some ((day + t) * 1000000)
    end
  else None.

End Iso.

(** [query.filter(ContentItem.category == c)] and
    [query.filter(ContentItem.published == p)]. *)
Definition category_is (c : string) (query : list ContentItem) : list ContentItem :=
  List.filter (fun r => String.eqb (category r) c) query.

Definition published_is (p : bool) (query : list ContentItem) : list ContentItem :=
  List.filter (fun r => Bool.eqb (published r) p) query.

(** ** API routes *)

Definition valid_categories : list string := ["blogs"; "events"; "news"].

Section Routes.

(** [datetime.fromisoformat]: [None] stands for its [ValueError]. *)
Variable fromisoformat : string -> option datetime.

(** [datetime.fromisoformat(event_date.replace('Z', '+00:00'))] under
    [try ... except ValueError]. *)
Definition parse_event_date (event_date : string) : M datetime :=
  match fromisoformat (Py.replace "Z" "+00:00" event_date) with
  | Some d => ret d
  | None => raise (HTTPException 400 "Invalid event_date format. Use ISO format.")
  end.

(** POST /api/upload-image *)
Definition upload_image (file : UploadFile) : M (string * option string) :=
  require_image file ;;
  try_except
    (file_url <- save_upload_file file ;;
     ret (file_url, filename file))
    (fun e =>
       raise (HTTPException 500 ("Error uploading file: " ++ str_exception e))).

(** POST /api/content.  The form defaults are [excerpt = None],
    [published = False], [event_date = None], [tags = None] and
    [image = None]. *)
Definition create_content (title content category author : string)
    (excerpt : option string) (published : bool)
    (event_date tags : option string) (image : option UploadFile)
    : M ContentItem :=
  (* Validate category *)
  when (negb (existsb (String.eqb category) valid_categories))
       (raise (HTTPException 400
                 ("Category must be one of: " ++ Py.repr_list valid_categories))) ;;
  (* Handle image upload *)
  image_url <- match uploaded image with
               | Some f =>
                   require_image f ;;
                   url <- save_upload_file f ;;
                   ret (Some url)
               | None => ret None
               end ;;
  (* Parse event_date if provided *)
  parsed_event_date <- match event_date with
                       | Some s =>
                           if Py.nonempty s
                           then d <- parse_event_date s ;; ret (Some d)
                           else ret None
                       | None => ret None
                       end ;;
  (* Create content item *)
  db_add_commit_refresh title content excerpt category image_url author
                        published parsed_event_date tags.

(** GET /api/content *)
Definition get_content (category : option string) (published : option bool)
    (limit offset : Z) : M (list ContentItem) :=
  w <- get_world ;;
  let query := content_items w in
  let query :=
    match category with
    | Some c =>
        if Py.nonempty c
        then category_is c query
        else query
    | None => query
    end in
  let query :=
    match published with
    | Some p => published_is p query
    | None => query
    end in
  let query := order_by_desc created_at query in
  ret (sql_limit limit (sql_offset offset query)).

(** GET /api/content/{item_id} *)
Definition get_content_item (item_id : Z) : M ContentItem :=
  item <- query_first_by_id item_id ;;
  match item with
  | None => raise (HTTPException 404 "Content item not found")
  | Some item => ret item
  end.

(** An assignment under [if v is not None]. *)
Definition assign {A} (v : option A) (set : A -> ContentItem -> ContentItem)
    (db_item : ContentItem) : ContentItem :=
  match v with
  | Some a => set a db_item
  | None => db_item
  end.

(** The block "Update fields if provided" of [update_content]. *)
Definition assign_fields (title content excerpt author : option string)
    (published : option bool) (tags : option string) (db_item : ContentItem)
    : ContentItem :=
  let db_item := assign title set_title db_item in
  let db_item := assign content set_content db_item in
  let db_item := assign excerpt (fun v => set_excerpt (Some v)) db_item in
  let db_item := assign author set_author db_item in
  let db_item := assign published set_published db_item in
  let db_item := assign tags (fun v => set_tags (Some v)) db_item in
  db_item.

(** PUT /api/content/{item_id}.  Every form field defaults to [None]. *)
Definition update_content (item_id : Z) (title content excerpt author : option string)
    (published : option bool) (event_date tags : option string)
    (image : option UploadFile) : M ContentItem :=
  found <- query_first_by_id item_id ;;
  match found with
  | None => raise (HTTPException 404 "Content item not found")
  | Some loaded =>
      (* Update fields if provided *)
      let db_item :=
        assign_fields title content excerpt author published tags loaded in
      (* Handle event_date update *)
      db_item <- match event_date with
                 | Some s =>
                     d <- parse_event_date s ;;
                     ret (set_event_date (Some d) db_item)
                 | None => ret db_item
                 end ;;
      (* Handle image update *)
      db_item <- match uploaded image with
                 | Some f =>
                     require_image f ;;
                     (* Delete old image if exists *)
                     unlink_image (image_url db_item) ;;
                     url <- save_upload_file f ;;
                     ret (set_image_url (Some url) db_item)
                 | None => ret db_item
                 end ;;
      t <- now ;;
      let db_item := set_updated_at t db_item in
      db_commit_refresh loaded db_item
  end.

(** DELETE /api/content/{item_id} *)
Definition delete_content (item_id : Z) : M string :=
  found <- query_first_by_id item_id ;;
  match found with
  | None => raise (HTTPException 404 "Content item not found")
  | Some db_item =>
      (* Delete associated image if exists *)
      unlink_image (image_url db_item) ;;
      db_delete_commit db_item ;;
      ret "Content item deleted successfully"
  end.

(** GET /api/blogs, /api/events and /api/news; [published] defaults to
    [True]. *)
Definition get_blogs (published : bool) (limit offset : Z) : M (list ContentItem) :=
  get_content (Some "blogs") (Some published) limit offset.

Definition get_events (published : bool) (limit offset : Z) : M (list ContentItem) :=
  get_content (Some "events") (Some published) limit offset.

Definition get_news (published : bool) (limit offset : Z) : M (list ContentItem) :=
  get_content (Some "news") (Some published) limit offset.

(** ** Histories of requests *)

Inductive Request :=
| POST_upload_image (file : UploadFile)
| POST_content (title content category author : string)
    (excerpt : option string) (published : bool)
    (event_date tags : option string) (image : option UploadFile)
| GET_content (category : option string) (published : option bool)
    (limit offset : Z)
| GET_content_item (item_id : Z)
| PUT_content (item_id : Z) (title content excerpt author : option string)
    (published : option bool) (event_date tags : option string)
    (image : option UploadFile)
| DELETE_content (item_id : Z).

(** The world after serving one request, whatever the response. *)
Definition serve (req : Request) (env : Env) (w : World) : World :=
  match req with
  | POST_upload_image f => snd (run (upload_image f) env w)
  | POST_content t c cat a e p d tg im =>
      snd (run (create_content t c cat a e p d tg im) env w)
  | GET_content c p l o => snd (run (get_content c p l o) env w)
  | GET_content_item i => snd (run (get_content_item i) env w)
  | PUT_content i t c e a p d tg im =>
      snd (run (update_content i t c e a p d tg im) env w)
  | DELETE_content i => snd (run (delete_content i) env w)
  end.

Definition empty_world : World := {| content_items := []; uploads := ∅ |}.

(** The world after a history of requests, the oldest first, each with
    what the runtime supplied to it. *)
Definition serve_from (w : World) (history : list (Request * Env)) : World :=
  fold_left (fun w re => serve (fst re) (snd re) w) history w.

Definition serve_all (history : list (Request * Env)) : World :=
  serve_from empty_world history.

(** Whether a request is an update or a deletion of the item [item_id]. *)
Definition writes_item (item_id : Z) (req : Request) : bool :=
  match req with
  | PUT_content i _ _ _ _ _ _ _ _ => (i =? item_id)%Z
  | DELETE_content i => (i =? item_id)%Z
  | _ => false
  end.

End Routes.

(** The range of a SQLite INTEGER.  An id, a limit or an offset outside it
    cannot be bound to a statement: the driver raises [OverflowError]
    before the query runs.  The model has no such failure, so what is
    stated of an absent id or of a listing window is stated within this
    range. *)
Definition int64 (z : Z) : Prop := - 2 ^ 63 <= z < 2 ^ 63.

(** A name under which [open] can create a file in [uploads]: at most
    NAME_MAX bytes and no NUL byte.  [write_file] has no failure, so what
    is stated of a successful write is stated for such names. *)
Definition NAME_MAX : nat := 255.

Definition file_name_ok (name : string) : Prop :=
  (String.length name <= NAME_MAX)%nat /\ Py.occurs Ascii.zero name = false.

(** The stored item with a given id: the row a query by id finds. *)
Definition row_of (w : World) (item_id : Z) : option ContentItem :=
  head (List.filter (fun r => (id r =? item_id)%Z) (content_items w)).

(** The shape of a reference that [save_upload_file] returns. *)
Definition upload_reference (url : string) : Prop :=
  exists u name,
    url = "/uploads/" ++ str_uuid u ++ snd (Py.splitext name).

(** What holds of the table after every history of requests: the primary
    key is unique, every category is a recognised one, and every image
    reference came from [save_upload_file]. *)
Definition well_formed (rows : list ContentItem) : Prop :=
  NoDup (map id rows)
  /\ forall r, In r rows ->
       In (category r) valid_categories
       /\ forall url, image_url r = Some url -> upload_reference url.

(** ** Sample requests *)

Module Sample.

(** A clock that advances by one microsecond at every reading, and one
    that stands still. *)
Definition ticking (start : datetime) : Env :=
  {| utcnow := fun n => start + Z.of_nat n;
     uuid4 := fun n => (0x123e4567e89b42d3a456426614174000 + N.of_nat n)%N |}.

Definition frozen (t : datetime) : Env :=
  {| utcnow := fun _ => t;
     uuid4 := fun n => (0x123e4567e89b42d3a456426614174000 + N.of_nat n)%N |}.

Definition png : UploadFile :=
  {| filename := Some "chart.png"; content_type := Some "image/png";
     file := "PNG-bytes" |}.

(** The creation of a news item by Jane with every optional form field
    left at its default, and the row it makes. *)
Definition post (title : string) : Request :=
  POST_content title "..." "news" "Jane" None false None None None.

Definition news (i : Z) (t : string) (image : option string)
    (created updated : datetime) : ContentItem :=
  {| id := i; title := t; content := "..."; excerpt := None;
     category := "news"; image_url := image; author := "Jane";
     published := false; created_at := created; updated_at := updated;
     event_date := None; tags := None |}.

(** The example of the specification. *)
Definition q1_row : ContentItem := news 1 "Q1 Update" None 1000 1001.

Definition one_item : World :=
  serve_all Iso.fromisoformat [(post "Q1 Update", ticking 1000)].

(** Two creations under a clock that stands still, and two under a clock
    that was set back in between. *)
Definition tie : list (Request * Env) :=
  [(post "A", frozen 1000); (post "B", frozen 1000)].

Definition set_back : list (Request * Env) :=
  [(post "A", ticking 2000); (post "B", ticking 1000)].


(** File parts that are no images, that have no name, and a second
    image. *)
Definition notes : UploadFile :=
  {| filename := Some "notes.txt"; content_type := Some "text/plain";
     file := "plain text" |}.

Definition nameless : UploadFile :=
  {| filename := None; content_type := Some "image/png"; file := "PNG-bytes" |}.

Definition photo : UploadFile :=
  {| filename := Some "../photo.final.jpg"; content_type := Some "image/jpeg";
     file := "JPG-bytes" |}.

(** A creation with an image. *)
Definition chart_name : string := "123e4567-e89b-42d3-a456-426614174000.png".

Definition with_image : list (Request * Env) :=
  [(POST_content "Q1 Update" "..." "news" "Jane" None false None None
      (Some png), ticking 1000)].

End Sample.

(** * Properties *)

Section Properties.

Variable fromisoformat : string -> option datetime.

Ltac handler :=
  unfold run, upload_image, create_content, get_content, get_content_item,
    update_content, delete_content, parse_event_date, require_image,
    content_type_startswith, save_upload_file, unlink_image,
    db_add_commit_refresh, db_commit_refresh, db_delete_commit,
    query_first_by_id, path_exists, unlink, write_file, try_except,
    when, bind, ret, raise, get_world, put_world, now, new_uuid.

Lemma valid_category_spec (c : string) :
  existsb (String.eqb c) valid_categories = true <-> In c valid_categories.
Proof.
  rewrite existsb_exists. split.
  - intros (x & Hx & Heq). apply String.eqb_eq in Heq. now subst.
  - intros H. exists c. split; [exact H | apply String.eqb_refl].
Qed.

Lemma query_first_by_id_found (item_id : Z) (rows : list ContentItem) :
  (exists r, In r rows /\ id r = item_id) ->
  exists r, head (List.filter (fun r => (id r =? item_id)%Z) rows) = Some r
            /\ In r rows /\ id r = item_id.
Proof.
  induction rows as [|x rows IH]; intros (r & Hin & Hid).
  - destruct Hin.
  - simpl. destruct (Z.eqb_spec (id x) item_id) as [Heq|Hne].
    + exists x. simpl. auto.
    + destruct Hin as [->|Hin]; [contradiction|].
      destruct IH as (r' & H1 & H2 & H3); [eauto|].
      exists r'. simpl. auto.
Qed.

Lemma query_nobody (item_id : Z) (rows : list ContentItem) :
  (forall r, In r rows -> id r <> item_id) ->
  List.filter (fun r => (id r =? item_id)%Z) rows = [].
Proof.
  induction rows as [|x rows IH]; intros H; [reflexivity|].
  simpl. destruct (Z.eqb_spec (id x) item_id) as [Heq|Hne].
  - exfalso. apply (H x); simpl; auto.
  - apply IH. intros r Hr. apply H. simpl; auto.
Qed.

Lemma query_first_by_id_absent (item_id : Z) (rows : list ContentItem) :
  (forall r, In r rows -> id r <> item_id) ->
  head (List.filter (fun r => (id r =? item_id)%Z) rows) = None.
Proof. intros H. now rewrite query_nobody. Qed.

(** C3: [create] with a category outside blogs, events, news raises the
    400 error (the store's ValidationError) whose detail is the message
    followed by the list of the three valid categories, and the world
    after the request is the world before it: no row is inserted and no
    file is written, whatever the other arguments. *)
Theorem create_content_unknown_category
    (title content category author : string) (excerpt : option string)
    (published : bool) (event_date tags : option string)
    (image : option UploadFile) (env : Env) (w : World) :
  ~ In category valid_categories ->
  run (create_content fromisoformat title content category author excerpt
         published event_date tags image) env w
  = (Raise (HTTPException 400
              "Category must be one of: ['blogs', 'events', 'news']"), w)
  /\ ValidationError
       (HTTPException 400 "Category must be one of: ['blogs', 'events', 'news']")
  /\ "Category must be one of: ['blogs', 'events', 'news']"
     = "Category must be one of: " ++ Py.repr_list valid_categories.
Proof.
  intros Hcat. split; [|split; [now eexists | reflexivity]].
  assert (Hb : existsb (String.eqb category) valid_categories = false).
  { destruct (existsb _ _) eqn:E; [|reflexivity].
    apply valid_category_spec in E. contradiction. }
  handler. rewrite Hb. reflexivity.
Qed.

(** C1: [update] of a stored item with an [event_date] that does not parse
    raises the 400 error (the store's ValidationError) and the world after
    the request is the world before it: the row keeps every column,
    [updated_at] included, whatever other fields and image the call
    supplied, and the upload directory is untouched. *)
Theorem update_content_unparsable_event_date
    (item_id : Z) (title content excerpt author : option string)
    (published : option bool) (event_date : string) (tags : option string)
    (image : option UploadFile) (env : Env) (w : World) :
  (exists r, In r (content_items w) /\ id r = item_id) ->
  fromisoformat (Py.replace "Z" "+00:00" event_date) = None ->
  run (update_content fromisoformat item_id title content excerpt author
         published (Some event_date) tags image) env w
  = (Raise (HTTPException 400 "Invalid event_date format. Use ISO format."), w)
  /\ ValidationError
       (HTTPException 400 "Invalid event_date format. Use ISO format.").
Proof.
  intros Hstored Hbad. split; [|now eexists].
  destruct (query_first_by_id_found _ _ Hstored) as (r & Hq & _ & _).
  handler. cbn. rewrite Hq, Hbad. reflexivity.
Qed.

(** C10: [list] with the empty string as category is [list] without a
    category: the handler tests the truth value of the argument, so no
    category filter is applied; with no other filter and no limit the
    listing is the whole table, items of every category included. *)
Theorem get_content_empty_category
    (published : option bool) (limit offset : Z) (env : Env) (w : World) :
  run (get_content (Some "") published limit offset) env w
  = run (get_content None published limit offset) env w
  /\ run (get_content (Some "") None (-1) 0) env w
     = (Return (order_by_desc created_at (content_items w)), w).
Proof. split; reflexivity. Qed.

(** *** Row identifiers *)

Lemma fold_max_ge (i : Z) (l : list Z) :
  i <= fold_right Z.max i l /\ forall j, In j l -> j <= fold_right Z.max i l.
Proof.
  induction l as [|a l [IH1 IH2]]; simpl.
  - split; [lia | tauto].
  - split; [lia|]. intros j [<-|Hj]; [lia|]. specialize (IH2 j Hj). lia.
Qed.

Lemma next_rowid_above (rows : list ContentItem) (r : ContentItem) :
  In r rows -> id r < next_rowid rows.
Proof.
  unfold next_rowid. destruct rows as [|x rows]; simpl; [tauto|].
  destruct (fold_max_ge (id x) (map id rows)) as [H1 H2].
  intros [<-|Hin]; [lia|].
  specialize (H2 (id r) (in_map id _ _ Hin)). lia.
Qed.

Lemma query_first_by_id_appended (rows : list ContentItem) (r : ContentItem) :
  id r = next_rowid rows ->
  head (List.filter (fun x => (id x =? id r)%Z) (rows ++ [r])) = Some r.
Proof.
  intros Hid. rewrite List.filter_app. simpl. rewrite Z.eqb_refl.
  replace (List.filter (fun x => (id x =? id r)%Z) rows) with (@nil ContentItem);
    [reflexivity|].
  symmetry. apply query_nobody. intros x Hx.
  apply next_rowid_above in Hx. lia.
Qed.

(** *** What a successful [create_content] did *)

(** Case analysis on the innermost tests of a handler run [H]. *)
Ltac case_run H :=
  repeat match type of H with
         | context [match ?x with _ => _ end] =>
             lazymatch x with
             | context [match _ with _ => _ end] => fail
             | _ => destruct x eqn:?; cbn in H; try discriminate H
             end
         end.

Lemma create_content_returned
    (t c cat a : string) (ex : option string) (p : bool)
    (ed tg : option string) (im : option UploadFile) (env : Env)
    (w w' : World) (r : ContentItem) :
  run (create_content fromisoformat t c cat a ex p ed tg im) env w
  = (Return r, w') ->
  In cat valid_categories
  /\ content_items w' = (content_items w ++ [r])%list
  /\ id r = next_rowid (content_items w)
  /\ title r = t /\ content r = c /\ excerpt r = ex /\ category r = cat
  /\ author r = a /\ published r = p /\ tags r = tg
  /\ created_at r = utcnow env 0 /\ updated_at r = utcnow env 1
  /\ event_date r
     = match ed with
       | Some s => if Py.nonempty s
                   then fromisoformat (Py.replace "Z" "+00:00" s) else None
       | None => None
       end
  /\ match uploaded im with
     | None => image_url r = None /\ uploads w' = uploads w
     | Some f =>
         exists name,
           filename f = Some name
           /\ image_url r
              = Some ("/uploads/" ++ str_uuid (uuid4 env 0)
                        ++ snd (Py.splitext name))
           /\ uploads w'
              = <[str_uuid (uuid4 env 0) ++ snd (Py.splitext name) := file f]>
                  (uploads w)
     end.
Proof.
  intros H.
  assert (Hcat : In cat valid_categories).
  { apply valid_category_spec.
    destruct (existsb (String.eqb cat) valid_categories) eqn:E; [reflexivity|].
    revert H. handler. rewrite E. discriminate. }
  split; [exact Hcat|].
  apply valid_category_spec in Hcat.
  revert H. handler. rewrite Hcat. cbn. intros H.
  destruct (uploaded im) as [f|] eqn:Hup; cbn in H.
  - case_run H.
    all: injection H as Hr Hw; subst r w'; cbn; repeat split; eauto.
  - case_run H.
    all: injection H as Hr Hw; subst r w'; cbn; repeat split; eauto.
Qed.

Lemma create_content_returns
    (t c cat a : string) (ex : option string) (p : bool)
    (tg : option string) (env : Env) (w : World) :
  In cat valid_categories ->
  run (create_content fromisoformat t c cat a ex p None tg None) env w
  = (Return {| id := next_rowid (content_items w); title := t; content := c;
               excerpt := ex; category := cat; image_url := None;
               author := a; published := p; created_at := utcnow env 0;
               updated_at := utcnow env 1; event_date := None; tags := tg |},
     {| content_items :=
          content_items w
          ++ [{| id := next_rowid (content_items w); title := t; content := c;
                 excerpt := ex; category := cat; image_url := None;
                 author := a; published := p; created_at := utcnow env 0;
                 updated_at := utcnow env 1; event_date := None; tags := tg |}];
        uploads := uploads w |}).
Proof.
  intros Hcat. apply valid_category_spec in Hcat.
  handler. rewrite Hcat. reflexivity.
Qed.

(** C4, as amended: a [create] with a valid category, no [event_date], no
    image and [published] left at its default [False] returns an entity
    with [published = false] and [image_url = null], whose id is the next
    rowid, carried by no row stored before; [created_at] is the first and
    [updated_at] the second reading of the clock taken by the insert, so
    the two are equal exactly when the clock did not advance in between. *)
Theorem create_content_defaults
    (t c cat a : string) (ex tg : option string) (env : Env) (w : World) :
  In cat valid_categories ->
  exists r w',
    run (create_content fromisoformat t c cat a ex false None tg None) env w
    = (Return r, w')
    /\ published r = false
    /\ image_url r = None
    /\ id r = next_rowid (content_items w)
    /\ (forall x, In x (content_items w) -> id x <> id r)
    /\ created_at r = utcnow env 0
    /\ updated_at r = utcnow env 1
    /\ (created_at r = updated_at r <-> utcnow env 0 = utcnow env 1).
Proof.
  intros Hcat. eexists. eexists.
  split; [apply create_content_returns; exact Hcat|].
  cbn. repeat split; auto.
  intros x Hx. apply next_rowid_above in Hx. lia.
Qed.

(** *** What [update_content] commits *)

Lemma opt_eqb_eq {A} (eqb : A -> A -> bool) (x y : option A) :
  (forall a b, eqb a b = true <-> a = b) ->
  opt_eqb eqb x y = true <-> x = y.
Proof.
  intros H. destruct x as [a|], y as [b|]; simpl;
    try (split; [discriminate | discriminate]); [|tauto].
  rewrite H. split; congruence.
Qed.

Lemma item_eqb_eq (a b : ContentItem) : item_eqb a b = true <-> a = b.
Proof.
  destruct a, b. unfold item_eqb. cbn.
  rewrite !andb_true_iff, !Z.eqb_eq, !String.eqb_eq, Bool.eqb_true_iff.
  rewrite !(opt_eqb_eq String.eqb) by apply String.eqb_eq.
  rewrite (opt_eqb_eq Z.eqb) by apply Z.eqb_eq.
  split.
  - intros H. decompose [and] H. congruence.
  - intros H. injection H as -> -> -> -> -> -> -> -> -> -> -> ->.
    repeat split.
Qed.

Lemma item_eqb_refl (a : ContentItem) : item_eqb a a = true.
Proof. now apply item_eqb_eq. Qed.

Lemma set_updated_at_same (r : ContentItem) : set_updated_at (updated_at r) r = r.
Proof. now destruct r. Qed.

(** The rows after the UPDATE of the row with the id of [row]. *)
Lemma query_first_by_id_updated (rows : list ContentItem) (r row : ContentItem) :
  head (List.filter (fun x => (id x =? id row)%Z) rows) = Some r ->
  head (List.filter (fun x => (id x =? id row)%Z)
          (map (fun x => if (id x =? id row)%Z then row else x) rows))
  = Some row.
Proof.
  induction rows as [|x rows IH]; simpl; [discriminate|].
  destruct (Z.eqb_spec (id x) (id row)) as [Heq|Hne]; simpl.
  - now rewrite Z.eqb_refl.
  - destruct (Z.eqb_spec (id x) (id row)); [contradiction|]. exact IH.
Qed.

Lemma query_first_by_id_other (rows : list ContentItem) (row : ContentItem) (j : Z) :
  j <> id row ->
  List.filter (fun x => (id x =? j)%Z)
    (map (fun x => if (id x =? id row)%Z then row else x) rows)
  = List.filter (fun x => (id x =? j)%Z) rows.
Proof.
  intros Hj. induction rows as [|x rows IH]; simpl; [reflexivity|].
  destruct (Z.eqb_spec (id x) (id row)) as [Heq|Hne].
  - destruct (Z.eqb_spec (id row) j); [congruence|].
    destruct (Z.eqb_spec (id x) j); [congruence|]. exact IH.
  - destruct (Z.eqb_spec (id x) j); [f_equal|]; exact IH.
Qed.

Lemma query_first_by_id_id (rows : list ContentItem) (item_id : Z) (r : ContentItem) :
  head (List.filter (fun x => (id x =? item_id)%Z) rows) = Some r ->
  id r = item_id /\ In r rows.
Proof.
  induction rows as [|x rows IH]; simpl; [discriminate|].
  destruct (Z.eqb_spec (id x) item_id) as [Heq|Hne]; simpl.
  - intros [= ->]. auto.
  - intros H. destruct (IH H). auto.
Qed.

Local Arguments assign_fields : simpl never.

Lemma assign_fields_frame (ti c ex a : option string) (p : option bool)
    (tg : option string) (r : ContentItem) :
  let r' := assign_fields ti c ex a p tg r in
  id r' = id r /\ category r' = category r /\ created_at r' = created_at r
  /\ updated_at r' = updated_at r /\ image_url r' = image_url r
  /\ event_date r' = event_date r
  /\ title r' = default (title r) ti
  /\ content r' = default (content r) c
  /\ excerpt r' = match ex with Some v => Some v | None => excerpt r end
  /\ author r' = default (author r) a
  /\ published r' = default (published r) p
  /\ tags r' = match tg with Some v => Some v | None => tags r end.
Proof.
  destruct ti, c, ex, a, p, tg; cbn; repeat split.
Qed.

Lemma assign_fields_none (r : ContentItem) :
  assign_fields None None None None None None r = r.
Proof. reflexivity. Qed.

Lemma update_content_returned
    (i : Z) (ti c ex a : option string) (p : option bool)
    (ed tg : option string) (im : option UploadFile) (env : Env)
    (w w' : World) (r r' : ContentItem) :
  head (List.filter (fun x => (id x =? i)%Z) (content_items w)) = Some r ->
  run (update_content fromisoformat i ti c ex a p ed tg im) env w
  = (Return r', w') ->
  let x := assign_fields ti c ex a p tg r in
  id r' = id r /\ category r' = category r /\ created_at r' = created_at r
  /\ title r' = title x /\ content r' = content x /\ excerpt r' = excerpt x
  /\ author r' = author x /\ published r' = published x /\ tags r' = tags x
  /\ event_date r'
     = match ed with
       | Some s => fromisoformat (Py.replace "Z" "+00:00" s)
       | None => event_date r
       end
  /\ match uploaded im with
     | None => image_url r' = image_url r /\ uploads w' = uploads w
     | Some f =>
         exists name,
           filename f = Some name
           /\ image_url r'
              = Some ("/uploads/" ++ str_uuid (uuid4 env 0)
                        ++ snd (Py.splitext name))
     end
  /\ (updated_at r' = utcnow env 0 \/ updated_at r' = utcnow env 1)
  /\ (content_items w'
      = map (fun y => if (id y =? id r')%Z then r' else y) (content_items w)
      \/ content_items w' = content_items w /\ r' = r).
Proof.
  intros Hq H.
  pose proof (assign_fields_frame ti c ex a p tg r) as Hx.
  cbv zeta in Hx |- *.
  revert H. handler. cbn. rewrite Hq. cbn.
  set (x := assign_fields ti c ex a p tg r) in *. clearbody x.
  destruct Hx as (X1 & X2 & X3 & X4 & X5 & X6 & _). intros H.
  destruct (uploaded im) as [f|] eqn:Hup; cbn in H.
  - case_run H.
    all: injection H as Hr Hw; subst r' w'.
    all: try match goal with
             | E : item_eqb _ _ = true |- _ =>
                 apply item_eqb_eq in E; rewrite <- E
             end.
    all: cbn; repeat split; eauto; try congruence.
  - case_run H.
    all: injection H as Hr Hw; subst r' w'.
    all: try match goal with
             | E : item_eqb _ _ = true |- _ =>
                 apply item_eqb_eq in E; rewrite <- E
             end.
    all: cbn; repeat split; eauto; try congruence.
Qed.

Lemma get_content_item_row_of (i : Z) (env : Env) (w : World) (r : ContentItem) :
  row_of w i = Some r -> run (get_content_item i) env w = (Return r, w).
Proof. unfold row_of. intros H. handler. cbn. now rewrite H. Qed.

Lemma update_content_frame
    (i : Z) (ti c ex a : option string) (p : option bool)
    (ed tg : option string) (im : option UploadFile) (env : Env)
    (w w' : World) (r r' : ContentItem) :
  row_of w i = Some r ->
  run (update_content fromisoformat i ti c ex a p ed tg im) env w
  = (Return r', w') ->
  id r' = id r /\ category r' = category r /\ created_at r' = created_at r
  /\ title r' = default (title r) ti
  /\ content r' = default (content r) c
  /\ excerpt r' = match ex with Some v => Some v | None => excerpt r end
  /\ author r' = default (author r) a
  /\ published r' = default (published r) p
  /\ tags r' = match tg with Some v => Some v | None => tags r end
  /\ event_date r'
     = match ed with
       | Some s => fromisoformat (Py.replace "Z" "+00:00" s)
       | None => event_date r
       end
  /\ (uploaded im = None -> image_url r' = image_url r)
  /\ (updated_at r' = utcnow env 0 \/ updated_at r' = utcnow env 1)
  /\ row_of w' i = Some r'
  /\ (forall j, j <> i -> row_of w' j = row_of w j).
Proof.
  intros Hq H.
  pose proof (update_content_returned _ _ _ _ _ _ _ _ _ _ _ _ _ _ Hq H) as Hu.
  pose proof (assign_fields_frame ti c ex a p tg r) as Hx.
  cbv zeta in Hu, Hx.
  destruct Hu as (U1 & U2 & U3 & U4 & U5 & U6 & U7 & U8 & U9 & U10 & U11
                  & U12 & U13).
  destruct Hx as (_ & _ & _ & _ & _ & _ & X7 & X8 & X9 & X10 & X11 & X12).
  repeat match goal with |- _ /\ _ => split end; try congruence;
    try exact U12.
  - intros Hno. rewrite Hno in U11. tauto.
  - apply query_first_by_id_id in Hq as Hi. destruct Hi as [Hi _].
    unfold row_of in *. destruct U13 as [-> | [-> ->]]; [|exact Hq].
    assert (Ei : i = id r') by congruence. rewrite Ei in Hq |- *.
    eapply query_first_by_id_updated. exact Hq.
  - intros j Hj. apply query_first_by_id_id in Hq as Hi. destruct Hi as [Hi _].
    unfold row_of. destruct U13 as [-> | [-> _]]; [|reflexivity].
    rewrite query_first_by_id_other; [reflexivity | congruence].
Qed.

(** C6: a partial update changes the supplied fields and [updated_at],
    and nothing else.  For the stored item [r] with id [i]:
    - whenever [update] returns, the returned entity has the id, category
      and [created_at] of [r]; each of title, content, excerpt, author,
      published and tags is the supplied value, or that of [r] when none
      was supplied; [event_date] is the parsed value or that of [r];
      [image_url] is that of [r] when no image was supplied; [updated_at]
      is a reading of the clock taken by the request; [get] then returns
      this entity, and the item of every other id is as it was;
    - [update(i)] with no field returns [r] with only [updated_at]
      replaced, by the reading of the clock;
    - [update(i, published=true)] when [r] has [published = false] returns
      [r] with only [published] and [updated_at] replaced. *)
Theorem update_content_partial
    (i : Z) (ti c ex a : option string) (p : option bool)
    (ed tg : option string) (im : option UploadFile) (env : Env)
    (w : World) (r : ContentItem) :
  row_of w i = Some r ->
  (forall r' w',
      run (update_content fromisoformat i ti c ex a p ed tg im) env w
      = (Return r', w') ->
      id r' = id r /\ category r' = category r /\ created_at r' = created_at r
      /\ title r' = default (title r) ti
      /\ content r' = default (content r) c
      /\ excerpt r' = match ex with Some v => Some v | None => excerpt r end
      /\ author r' = default (author r) a
      /\ published r' = default (published r) p
      /\ tags r' = match tg with Some v => Some v | None => tags r end
      /\ event_date r'
         = match ed with
           | Some s => fromisoformat (Py.replace "Z" "+00:00" s)
           | None => event_date r
           end
      /\ (uploaded im = None -> image_url r' = image_url r)
      /\ (updated_at r' = utcnow env 0 \/ updated_at r' = utcnow env 1)
      /\ row_of w' i = Some r'
      /\ (forall j, j <> i -> row_of w' j = row_of w j))
  /\ (exists w',
        run (update_content fromisoformat i None None None None None None
               None None) env w
        = (Return (set_updated_at (utcnow env 0) r), w'))
  /\ (published r = false ->
      exists t w',
        (t = utcnow env 0 \/ t = utcnow env 1)
        /\ run (update_content fromisoformat i None None None None (Some true)
                  None None None) env w
           = (Return (set_updated_at t (set_published true r)), w')).
Proof.
  intros Hq. split; [|split].
  - intros r' w' H. now apply (update_content_frame _ _ _ _ _ _ _ _ _ _ _ _ _ _ Hq H).
  - unfold row_of in Hq. handler. cbn. rewrite Hq. cbn.
    rewrite assign_fields_none.
    destruct (item_eqb _ _) eqn:E.
    + apply item_eqb_eq in E. rewrite E. eauto.
    + destruct (Z.eqb_spec (utcnow env 0) (updated_at r)) as [Et|Et].
      * rewrite Et, set_updated_at_same, item_eqb_refl in E. discriminate.
      * cbn. destruct (Z.eqb_spec (utcnow env 0) (updated_at r)); [contradiction|].
        eauto.
  - intros Hp. unfold row_of in Hq. handler. cbn. rewrite Hq. cbn.
    unfold assign_fields, assign.
    destruct (item_eqb _ _) eqn:E.
    + apply item_eqb_eq in E. apply (f_equal published) in E. cbn in E.
      congruence.
    + cbn. destruct (Z.eqb_spec (utcnow env 0) (updated_at r)) as [Et|Et].
      * exists (utcnow env 1). eexists. split; [auto|]. reflexivity.
      * exists (utcnow env 0). eexists. split; [auto|]. reflexivity.
Qed.

(** *** Requests that raise, and [delete_content] *)

Lemma upload_image_rows (f : UploadFile) (env : Env) (w : World) :
  content_items (snd (run (upload_image f) env w)) = content_items w.
Proof.
  handler. cbn.
  destruct (content_type f) as [ct|]; cbn; [|reflexivity].
  destruct (negb (Py.startswith ct "image/")); cbn; [reflexivity|].
  destruct (filename f); reflexivity.
Qed.

Lemma create_content_raised
    (t c cat a : string) (ex : option string) (p : bool)
    (ed tg : option string) (im : option UploadFile) (env : Env)
    (w w' : World) (e : Exception) :
  run (create_content fromisoformat t c cat a ex p ed tg im) env w
  = (Raise e, w') ->
  content_items w' = content_items w.
Proof.
  handler. cbn. intros H.
  destruct (uploaded im) as [f|] eqn:Hup; cbn in H; case_run H.
  all: injection H as _ Hw; subst w'; reflexivity.
Qed.

Lemma update_content_raised
    (i : Z) (ti c ex a : option string) (p : option bool)
    (ed tg : option string) (im : option UploadFile) (env : Env)
    (w w' : World) (e : Exception) :
  run (update_content fromisoformat i ti c ex a p ed tg im) env w
  = (Raise e, w') ->
  content_items w' = content_items w.
Proof.
  handler. cbn. intros H.
  destruct (head _) as [r|] eqn:Hq; cbn in H.
  - destruct (uploaded im) as [f|] eqn:Hup; cbn in H; case_run H.
    all: injection H as _ Hw; subst w'; reflexivity.
  - injection H as _ Hw; subst w'; reflexivity.
Qed.

Lemma delete_content_absent (i : Z) (env : Env) (w : World) :
  row_of w i = None ->
  run (delete_content i) env w
  = (Raise (HTTPException 404 "Content item not found"), w).
Proof. unfold row_of. intros H. handler. cbn. now rewrite H. Qed.

Lemma delete_content_found (i : Z) (env : Env) (w : World) (r : ContentItem) :
  row_of w i = Some r ->
  run (delete_content i) env w
  = (Return "Content item deleted successfully",
     {| content_items :=
          List.filter (fun x => negb (id x =? id r)%Z) (content_items w);
        uploads :=
          match image_url r with
          | Some u =>
              if Py.nonempty u then delete (Py.basename u) (uploads w)
              else uploads w
          | None => uploads w
          end |}).
Proof.
  unfold row_of. intros H. handler. cbn. rewrite H. cbn.
  destruct (image_url r) as [u|]; cbn; [|reflexivity].
  destruct (Py.nonempty u); cbn; [|reflexivity].
  destruct (uploads w !! Py.basename u) eqn:E; cbn; [reflexivity|].
  now rewrite delete_id.
Qed.

(** *** How a request changes the table *)

Lemma update_content_returned_found
    (i : Z) (ti c ex a : option string) (p : option bool)
    (ed tg : option string) (im : option UploadFile) (env : Env)
    (w w' : World) (r' : ContentItem) :
  run (update_content fromisoformat i ti c ex a p ed tg im) env w
  = (Return r', w') ->
  exists r, row_of w i = Some r.
Proof.
  unfold row_of. handler. cbn.
  destruct (head _) as [r|]; cbn; [eauto | discriminate].
Qed.

Lemma serve_rows (req : Request) (env : Env) (w : World) :
  let rows := content_items w in
  let rows' := content_items (serve fromisoformat req env w) in
  rows' = rows
  \/ (exists r,
        rows' = (rows ++ [r])%list /\ id r = next_rowid rows
        /\ In (category r) valid_categories
        /\ forall url, image_url r = Some url -> upload_reference url)
  \/ (exists r r',
        row_of w (id r') = Some r
        /\ rows' = map (fun y => if (id y =? id r')%Z then r' else y) rows
        /\ category r' = category r
        /\ (image_url r' = image_url r
            \/ forall url, image_url r' = Some url -> upload_reference url))
  \/ (exists i, rows' = List.filter (fun x => negb (id x =? i)%Z) rows).
Proof.
  cbv zeta. destruct req; unfold serve.
  - left. apply upload_image_rows.
  - destruct (run _ env w) as [[r|e] w'] eqn:H; cbn.
    + right; left. exists r.
      apply create_content_returned in H
        as (Hcat & Hrows & Hid & _ & _ & _ & Hc & _ & _ & _ & _ & _ & _ & Him).
      split; [exact Hrows|]. split; [exact Hid|].
      split; [rewrite Hc; exact Hcat|].
      intros url Hurl. destruct (uploaded image) as [f|].
      * destruct Him as (name & _ & Hu & _).
        exists (uuid4 env 0), name. congruence.
      * destruct Him as [Hu _]. congruence.
    + left. eapply create_content_raised; eassumption.
  - left. reflexivity.
  - left. handler. cbn. now destruct (head _).
  - destruct (run _ env w) as [[r'|e] w'] eqn:H; cbn.
    + destruct (update_content_returned_found _ _ _ _ _ _ _ _ _ _ _ _ _ H)
        as [r Hq].
      pose proof (update_content_returned _ _ _ _ _ _ _ _ _ _ _ _ _ _ Hq H) as Hu.
      cbv zeta in Hu.
      destruct Hu as (U1 & U2 & _ & _ & _ & _ & _ & _ & _ & _ & U11 & _ & U13).
      destruct U13 as [Hrows | [Hrows _]]; [|now left].
      right; right; left. exists r, r'.
      apply query_first_by_id_id in Hq as Hi. destruct Hi as [Hi _].
      split; [rewrite U1, Hi; exact Hq|].
      split; [exact Hrows|]. split; [exact U2|].
      destruct (uploaded image) as [f|].
      * right. intros url Hurl. destruct U11 as (name & _ & Hn).
        exists (uuid4 env 0), name. congruence.
      * left. tauto.
    + left. eapply update_content_raised; eassumption.
  - destruct (row_of w item_id) as [r|] eqn:Hq.
    + rewrite (delete_content_found _ _ _ _ Hq). cbn.
      right; right; right. now exists (id r).
    + rewrite (delete_content_absent _ _ _ Hq). now left.
Qed.

(** *** Items that later requests do not write *)

Lemma row_of_rows (w w' : World) (j : Z) :
  content_items w' = content_items w -> row_of w' j = row_of w j.
Proof. unfold row_of. now intros ->. Qed.

Lemma query_first_by_id_app (rows more : list ContentItem) (j : Z) (r : ContentItem) :
  head (List.filter (fun x => (id x =? j)%Z) rows) = Some r ->
  head (List.filter (fun x => (id x =? j)%Z) (rows ++ more)) = Some r.
Proof.
  rewrite List.filter_app.
  destruct (List.filter (fun x => (id x =? j)%Z) rows); [discriminate | auto].
Qed.

Lemma query_first_by_id_deleted_other (rows : list ContentItem) (i j : Z) :
  i <> j ->
  List.filter (fun x => (id x =? j)%Z)
    (List.filter (fun x => negb (id x =? i)%Z) rows)
  = List.filter (fun x => (id x =? j)%Z) rows.
Proof.
  intros Hij. induction rows as [|x rows IH]; simpl; [reflexivity|].
  destruct (Z.eqb_spec (id x) i) as [Hi|Hi]; simpl.
  - destruct (Z.eqb_spec (id x) j); [congruence | exact IH].
  - destruct (Z.eqb_spec (id x) j); [f_equal|]; exact IH.
Qed.

Lemma serve_keeps_item (req : Request) (env : Env) (w : World) (j : Z)
    (r : ContentItem) :
  writes_item j req = false ->
  row_of w j = Some r ->
  row_of (serve fromisoformat req env w) j = Some r.
Proof.
  intros Hreq Hq. destruct req; unfold serve; simpl in Hreq.
  - erewrite row_of_rows; [exact Hq | apply upload_image_rows].
  - destruct (run _ env w) as [[x|e] w'] eqn:H; cbn [snd].
    + apply create_content_returned in H as (_ & Hrows & _).
      unfold row_of in *. rewrite Hrows. now apply query_first_by_id_app.
    + erewrite row_of_rows; [exact Hq|].
      eapply create_content_raised; eassumption.
  - exact Hq.
  - erewrite row_of_rows; [exact Hq|]. handler. cbn. now destruct (head _).
  - apply Z.eqb_neq in Hreq.
    destruct (run _ env w) as [[r'|e] w'] eqn:H; cbn [snd].
    + destruct (update_content_returned_found _ _ _ _ _ _ _ _ _ _ _ _ _ H)
        as [r0 Hq0].
      destruct (update_content_frame _ _ _ _ _ _ _ _ _ _ _ _ _ _ Hq0 H)
        as (_ & _ & _ & _ & _ & _ & _ & _ & _ & _ & _ & _ & _ & Hother).
      rewrite Hother; [exact Hq | congruence].
    + erewrite row_of_rows; [exact Hq|].
      eapply update_content_raised; eassumption.
  - apply Z.eqb_neq in Hreq.
    destruct (row_of w item_id) as [r0|] eqn:Hq0.
    + rewrite (delete_content_found _ _ _ _ Hq0). cbn [snd].
      apply query_first_by_id_id in Hq0 as [Hi _].
      unfold row_of in *. cbn [content_items].
      rewrite query_first_by_id_deleted_other; [exact Hq | congruence].
    + now rewrite (delete_content_absent _ _ _ Hq0).
Qed.



(** *** The invariant of the table *)

Lemma serve_all_snoc (history : list (Request * Env)) (req : Request) (env : Env) :
  serve_all fromisoformat (history ++ [(req, env)])
  = serve fromisoformat req env (serve_all fromisoformat history).
Proof. unfold serve_all, serve_from. now rewrite fold_left_app. Qed.

Lemma NoDup_snoc (l : list Z) (x : Z) :
  NoDup l -> ~ In x l -> NoDup (l ++ [x]).
Proof.
  induction l as [|a l IH]; simpl; intros Hl Hx.
  - constructor; [intros H; inversion H | constructor].
  - inversion Hl as [|? ? Ha Hl']; subst. constructor.
    + rewrite list_elem_of_In, in_app_iff. rewrite list_elem_of_In in Ha.
      simpl. intuition.
    + apply IH; [exact Hl' | tauto].
Qed.

Lemma map_id_replace (rows : list ContentItem) (row : ContentItem) :
  map id (map (fun y => if (id y =? id row)%Z then row else y) rows)
  = map id rows.
Proof.
  induction rows as [|x rows IH]; simpl; [reflexivity|].
  rewrite IH. destruct (Z.eqb_spec (id x) (id row)); congruence.
Qed.

Lemma In_replace (rows : list ContentItem) (row x : ContentItem) :
  In x (map (fun y => if (id y =? id row)%Z then row else y) rows) ->
  x = row \/ In x rows.
Proof.
  rewrite in_map_iff. intros (y & Hy & Hin).
  destruct (id y =? id row)%Z; subst; auto.
Qed.

Lemma NoDup_ids_filter (f : ContentItem -> bool) (rows : list ContentItem) :
  NoDup (map id rows) -> NoDup (map id (List.filter f rows)).
Proof.
  induction rows as [|x rows IH]; simpl; intros H; [constructor|].
  inversion H as [|? ? Hx H']; subst.
  destruct (f x); simpl; [|auto].
  constructor; [|auto].
  rewrite list_elem_of_In in *. rewrite in_map_iff in *.
  intros (y & Hy & Hin). apply Hx. exists y. split; [exact Hy|].
  apply List.filter_In in Hin. tauto.
Qed.

Lemma serve_well_formed (req : Request) (env : Env) (w : World) :
  well_formed (content_items w) ->
  well_formed (content_items (serve fromisoformat req env w)).
Proof.
  intros [Hnd Hrows].
  destruct (serve_rows req env w) as [E | [(r & E & Hid & Hcat & Him)
    | [(r & r' & Hq & E & Hcat & Him) | (i & E)]]]; cbv zeta in E; rewrite E.
  - now split.
  - split.
    + rewrite map_app. apply NoDup_snoc; [exact Hnd|].
      rewrite in_map_iff. intros (x & Hx & Hin).
      apply next_rowid_above in Hin. lia.
    + intros x Hx. apply in_app_iff in Hx as [Hx | [<- | []]]; auto.
  - apply query_first_by_id_id in Hq as [_ Hin]. split.
    + now rewrite map_id_replace.
    + intros x Hx. apply In_replace in Hx as [-> | Hx]; [|auto].
      destruct (Hrows r Hin) as [Hc Hu]. split; [congruence|].
      destruct Him as [Him | Him]; [|exact Him].
      intros url. rewrite Him. apply Hu.
  - split.
    + now apply NoDup_ids_filter.
    + intros x Hx. apply List.filter_In in Hx as [Hx _]. auto.
Qed.

Lemma serve_all_well_formed (history : list (Request * Env)) :
  well_formed (content_items (serve_all fromisoformat history)).
Proof.
  induction history as [|[req env] history IH] using rev_ind.
  - split; [constructor | intros r []].
  - rewrite serve_all_snoc. now apply serve_well_formed.
Qed.

(** *** File names of stored images *)

Lemma occurs_app (c : ascii) (s1 s2 : string) :
  Py.occurs c (s1 ++ s2) = Py.occurs c s1 || Py.occurs c s2.
Proof.
  induction s1 as [|a s1 IH]; simpl; [reflexivity|].
  now rewrite IH, orb_assoc.
Qed.

Lemma occurs_substring (c : ascii) (s : string) (n m : nat) :
  Py.occurs c s = false -> Py.occurs c (substring n m s) = false.
Proof.
  revert n m. induction s as [|a s IH]; intros n m H.
  - now destruct n, m.
  - simpl in H. apply orb_false_iff in H as [Ha Hs].
    destruct n, m; simpl; auto. now rewrite Ha, IH.
Qed.

Lemma hexdigit_not_slash (d : N) : Ascii.eqb (hexdigit d) "/" = false.
Proof.
  unfold hexdigit.
  repeat match goal with
         | |- context [match ?x with _ => _ end] => destruct x
         end; reflexivity.
Qed.

Lemma hex_no_slash (width : nat) (n : N) : Py.occurs "/" (hex width n) = false.
Proof.
  revert n. induction width as [|k IH]; intros n; simpl; [reflexivity|].
  rewrite occurs_app, IH. simpl. now rewrite hexdigit_not_slash.
Qed.

Lemma str_uuid_no_slash (u : N) : Py.occurs "/" (str_uuid u) = false.
Proof.
  unfold str_uuid. cbv zeta.
  rewrite !occurs_app, !occurs_substring by apply hex_no_slash.
  reflexivity.
Qed.

Lemma rfind_from_ge (c : ascii) (s : string) (k last : Z) :
  last <= k -> last <= Py.rfind_from c s k last.
Proof.
  revert k last. induction s as [|a s IH]; intros k last H; simpl; [lia|].
  destruct (Ascii.eqb a c).
  - specialize (IH (k + 1) k). lia.
  - apply IH. lia.
Qed.

Lemma rfind_from_absent (c : ascii) (s : string) (k last : Z) :
  Py.occurs c s = false -> Py.rfind_from c s k last = last.
Proof.
  revert k last. induction s as [|a s IH]; intros k last H; simpl; [reflexivity|].
  simpl in H. apply orb_false_iff in H as [-> Hs]. now apply IH.
Qed.

Lemma rfind_from_below (c : ascii) (s : string) (k last : Z) (n : nat) :
  last < k ->
  Py.rfind_from c s k last < k + Z.of_nat n ->
  Py.occurs c (Py.slice_from n s) = false.
Proof.
  revert k last n. induction s as [|a s IH]; intros k last n Hl H.
  - now destruct n.
  - simpl in H. destruct n as [|n]; simpl.
    + destruct (Ascii.eqb a c) eqn:E.
      * pose proof (rfind_from_ge c s (k + 1) k). lia.
      * simpl. apply (IH (k + 1) last 0%nat); simpl; lia.
    + apply (IH (k + 1) (if Ascii.eqb a c then k else last) n).
      * destruct (Ascii.eqb a c); lia.
      * lia.
Qed.

Lemma splitext_loop_ext (p : string) (dotIndex : Z) (steps : nat) (i : Z) :
  snd (Py.splitext_loop p dotIndex steps i) = EmptyString
  \/ snd (Py.splitext_loop p dotIndex steps i)
     = Py.slice_from (Z.to_nat dotIndex) p.
Proof.
  revert i. induction steps as [|k IH]; intros i; simpl; [now left|].
  destruct (get (Z.to_nat i) p) as [c|]; [|now left].
  destruct (Ascii.eqb c "."); [apply IH | now right].
Qed.

Lemma splitext_no_slash (name : string) :
  Py.occurs "/" (snd (Py.splitext name)) = false.
Proof.
  unfold Py.splitext. cbv zeta.
  destruct (Z.ltb_spec (Py.rfind "/" name) (Py.rfind "." name)) as [Hlt|_];
    [|reflexivity].
  destruct (splitext_loop_ext name (Py.rfind "." name)
              (Z.to_nat (Py.rfind "." name - (Py.rfind "/" name + 1)))
              (Py.rfind "/" name + 1)) as [-> | ->]; [reflexivity|].
  assert (-1 <= Py.rfind "/" name)
    by (unfold Py.rfind; apply rfind_from_ge; lia).
  apply (rfind_from_below "/" name 0 (-1)); [lia|].
  fold (Py.rfind "/" name). lia.
Qed.

Lemma basename_upload_reference (url : string) :
  upload_reference url ->
  Py.nonempty url = true /\ url = "/uploads/" ++ Py.basename url.
Proof.
  intros (u & name & ->).
  assert (H : Py.occurs "/" (str_uuid u ++ snd (Py.splitext name)) = false)
    by now rewrite occurs_app, str_uuid_no_slash, splitext_no_slash.
  revert H. generalize (str_uuid u ++ snd (Py.splitext name)). intros n H.
  split; [reflexivity|].
  unfold Py.basename, Py.rfind. simpl.
  now rewrite rfind_from_absent.
Qed.

(** *** Categories *)

(** C8: after every history of requests served from the empty store,
    every stored item has its category among blogs, events and news; and
    an [update], whatever its arguments and its outcome, leaves the
    category of the item of every id as it was. *)
Theorem category_invariant :
  (forall history : list (Request * Env),
      Forall (fun r => In (category r) valid_categories)
             (content_items (serve_all fromisoformat history)))
  /\ (forall (i : Z) (ti c ex a : option string) (p : option bool)
             (ed tg : option string) (im : option UploadFile) (env : Env)
             (w : World) (j : Z),
        category
          <$> row_of (snd (run (update_content fromisoformat i ti c ex a p
                                  ed tg im) env w)) j
        = category <$> row_of w j).
Proof.
  split.
  - intros history. apply Forall_forall. intros r Hr.
    destruct (serve_all_well_formed history) as [_ Hw].
    apply list_elem_of_In in Hr. exact (proj1 (Hw r Hr)).
  - intros i ti c ex a p ed tg im env w j.
    destruct (run _ env w) as [[r'|e] w'] eqn:H; cbn [snd].
    + destruct (update_content_returned_found _ _ _ _ _ _ _ _ _ _ _ _ _ H)
        as [r Hq].
      destruct (update_content_frame _ _ _ _ _ _ _ _ _ _ _ _ _ _ Hq H)
        as (_ & Hcat & _ & _ & _ & _ & _ & _ & _ & _ & _ & _ & Hi & Hother).
      destruct (Z.eq_dec j i) as [->|Hj].
      * rewrite Hi, Hq. cbn. now rewrite Hcat.
      * now rewrite Hother.
    + apply update_content_raised in H. unfold row_of. now rewrite H.
Qed.

(** *** Deletion *)

(** C9: for an item [r] stored under id [i] after any history of requests,
    [delete(i)] succeeds, whether or not the file of its image is still
    there; no stored row carries the id afterwards and the other rows are
    kept; when [image_url] is set, it is the reference [/uploads/<name>]
    of a file name, and afterwards the upload directory is the one before
    without that file, so the reference no longer resolves; and a second
    [delete(i)] raises the 404 error (the store's NotFoundError) and
    changes nothing. *)
Theorem delete_content_twice
    (history : list (Request * Env)) (i : Z) (env env' : Env)
    (r : ContentItem) :
  let w := serve_all fromisoformat history in
  row_of w i = Some r ->
  exists w',
    run (delete_content i) env w
    = (Return "Content item deleted successfully", w')
    /\ (forall x, In x (content_items w') <-> In x (content_items w) /\ id x <> i)
    /\ uploads w'
       = match image_url r with
         | Some url => delete (Py.basename url) (uploads w)
         | None => uploads w
         end
    /\ (forall url,
          image_url r = Some url ->
          url = "/uploads/" ++ Py.basename url
          /\ uploads w' !! Py.basename url = None)
    /\ run (delete_content i) env' w'
       = (Raise (HTTPException 404 "Content item not found"), w')
    /\ NotFoundError (HTTPException 404 "Content item not found").
Proof.
  intros w Hq. eexists. split; [apply (delete_content_found _ _ _ _ Hq)|].
  apply query_first_by_id_id in Hq as Hi. destruct Hi as [Hi Hin].
  destruct (serve_all_well_formed history) as [_ Hw]. fold w in Hw.
  destruct (Hw r Hin) as [_ Hurl].
  assert (Hrows : forall x,
             In x (List.filter (fun x => negb (id x =? id r)%Z) (content_items w))
             <-> In x (content_items w) /\ id x <> i).
  { intros x. rewrite List.filter_In, negb_true_iff, Z.eqb_neq, Hi. tauto. }
  cbn [content_items uploads]. split; [exact Hrows|].
  split; [|split].
  - destruct (image_url r) as [url|]; [|reflexivity].
    destruct (basename_upload_reference url (Hurl url eq_refl)) as [-> _].
    reflexivity.
  - intros url Hu. rewrite Hu.
    destruct (basename_upload_reference url (Hurl url Hu)) as [-> Hname].
    split; [exact Hname | apply lookup_delete_eq].
  - split; [|now eexists].
    apply delete_content_absent. unfold row_of. cbn [content_items].
    apply query_first_by_id_absent. intros x Hx. apply Hrows in Hx. tauto.
Qed.

(** *** An image and an unparsable date in one [create] *)

Lemma create_content_image_then_bad_date
    (t c cat a : string) (ex : option string) (p : bool) (ed : string)
    (tg : option string) (f : UploadFile) (name ct : string) (env : Env)
    (w : World) :
  In cat valid_categories ->
  filename f = Some name -> Py.nonempty name = true ->
  content_type f = Some ct -> Py.startswith ct "image/" = true ->
  Py.nonempty ed = true ->
  fromisoformat (Py.replace "Z" "+00:00" ed) = None ->
  run (create_content fromisoformat t c cat a ex p (Some ed) tg (Some f)) env w
  = (Raise (HTTPException 400 "Invalid event_date format. Use ISO format."),
     {| content_items := content_items w;
        uploads := <[str_uuid (uuid4 env 0) ++ snd (Py.splitext name) := file f]>
                     (uploads w) |}).
Proof.
  intros Hcat Hname Hne Hct Himg Hed Hbad.
  apply valid_category_spec in Hcat.
  handler. unfold uploaded. rewrite Hcat, Hname. cbn. rewrite Hne, Hct. cbn.
  rewrite Himg. cbn. rewrite Hname. cbn. rewrite Hed. cbn.
  now rewrite Hbad.
Qed.

(** *** Ordering of listings *)

Section OrderByFacts.
Context {A : Type} (key : A -> Z).

Let desc (a b : A) : Prop := key b <= key a.

Lemma insert_desc_perm (x : A) (l : list A) :
  Permutation (x :: l) (insert_desc key x l).
Proof.
  induction l as [|y l IH]; simpl; [reflexivity|].
  destruct (key x <? key y)%Z; [|reflexivity].
  etransitivity; [apply perm_swap|]. now apply perm_skip.
Qed.

Lemma order_by_desc_perm (l : list A) : Permutation l (order_by_desc key l).
Proof.
  induction l as [|x l IH]; simpl; [reflexivity|].
  etransitivity; [|apply insert_desc_perm]. now apply perm_skip.
Qed.

Lemma In_insert_desc (x v : A) (l : list A) :
  In v (insert_desc key x l) <-> v = x \/ In v l.
Proof.
  split.
  - intros H. apply (Permutation_in _ (Permutation_sym (insert_desc_perm x l))) in H.
    destruct H; auto.
  - intros H. apply (Permutation_in _ (insert_desc_perm x l)).
    destruct H; simpl; auto.
Qed.

Lemma In_order_by_desc (v : A) (l : list A) :
  In v (order_by_desc key l) <-> In v l.
Proof.
  split; apply Permutation_in;
    [apply Permutation_sym|]; apply order_by_desc_perm.
Qed.

Lemma insert_desc_sorted (x : A) (l : list A) :
  StronglySorted desc l -> StronglySorted desc (insert_desc key x l).
Proof.
  induction 1 as [|y l Hl IH Hy]; simpl.
  - constructor; constructor.
  - pose proof Hy as Hall. rewrite List.Forall_forall in Hy.
    destruct (Z.ltb_spec (key x) (key y)) as [Hlt|Hge].
    + constructor; [exact IH|].
      apply List.Forall_forall. intros v Hv.
      apply In_insert_desc in Hv as [->|Hv]; [unfold desc; lia | now apply Hy].
    + constructor; [now constructor|].
      apply List.Forall_forall. intros v [<-|Hv]; [exact Hge|].
      specialize (Hy v Hv). unfold desc in *. lia.
Qed.

Lemma order_by_desc_sorted (l : list A) :
  StronglySorted desc (order_by_desc key l).
Proof.
  induction l as [|x l IH]; simpl; [constructor | now apply insert_desc_sorted].
Qed.

Lemma insert_desc_before (a x y : A) (l : list A) :
  before x y l -> before x y (insert_desc key a l).
Proof.
  induction 1 as [l Hy | z l H IH]; simpl.
  - destruct (key a <? key x)%Z.
    + apply before_head. apply In_insert_desc. auto.
    + apply before_tail. now apply before_head.
  - destruct (key a <? key z)%Z.
    + now apply before_tail.
    + now do 2 apply before_tail.
Qed.

(** A row is inserted before the rows it does not have a smaller key
    than: equal keys keep their scan order. *)
Lemma insert_desc_first (a y : A) (l : list A) :
  In y l -> key y <= key a -> before a y (insert_desc key a l).
Proof.
  induction l as [|z l IH]; simpl; [tauto|]. intros Hy Hle.
  destruct (Z.ltb_spec (key a) (key z)) as [Hlt|Hge].
  - apply before_tail. apply IH; [|exact Hle].
    destruct Hy as [->|Hy]; [lia | exact Hy].
  - apply before_head. exact Hy.
Qed.

(** A row is inserted after the rows with a strictly larger key. *)
Lemma insert_desc_after (a y : A) (l : list A) :
  StronglySorted desc l ->
  In y l -> key a < key y -> before y a (insert_desc key a l).
Proof.
  induction 1 as [|z l Hl IH Hz]; simpl; [tauto|]. intros Hy Hlt.
  rewrite List.Forall_forall in Hz.
  destruct (Z.ltb_spec (key a) (key z)) as [Haz|Haz].
  - destruct Hy as [->|Hy].
    + apply before_head. apply In_insert_desc. auto.
    + apply before_tail. now apply IH.
  - exfalso. destruct Hy as [->|Hy]; [lia|].
    specialize (Hz y Hy). unfold desc in Hz. lia.
Qed.

(** The order of two rows in the result, from their scan order and
    their keys. *)
Lemma order_by_desc_before (x y : A) (l : list A) :
  before x y l ->
  (key x < key y -> before y x (order_by_desc key l))
  /\ (key y <= key x -> before x y (order_by_desc key l)).
Proof.
  induction 1 as [l Hy | z l H [IH1 IH2]]; simpl.
  - apply In_order_by_desc in Hy. split; intros Hk.
    + apply insert_desc_after; [apply order_by_desc_sorted | exact Hy | exact Hk].
    + now apply insert_desc_first.
  - split; intros Hk; apply insert_desc_before; auto.
Qed.

End OrderByFacts.

Section Slices.
Context {A : Type}.

Lemma before_In (x y : A) (l : list A) : before x y l -> In x l /\ In y l.
Proof. induction 1; simpl; tauto. Qed.

Lemma before_filter (f : A -> bool) (x y : A) (l : list A) :
  before x y l -> f x = true -> f y = true -> before x y (List.filter f l).
Proof.
  induction 1 as [l Hy | z l H IH]; simpl; intros Hx Hfy.
  - rewrite Hx. apply before_head. apply List.filter_In. auto.
  - destruct (f z); [apply before_tail|]; auto.
Qed.

Lemma skipn_In (n : nat) (v : A) (l : list A) : In v (skipn n l) -> In v l.
Proof.
  revert l. induction n as [|n IH]; intros [|x l]; simpl; auto.
Qed.

Lemma firstn_In (n : nat) (v : A) (l : list A) : In v (firstn n l) -> In v l.
Proof.
  revert l. induction n as [|n IH]; intros [|x l]; simpl; try tauto.
  intros [->|H]; auto.
Qed.

Lemma before_skipn (n : nat) (x y : A) (l : list A) :
  NoDup l -> before x y l -> In x (skipn n l) -> before x y (skipn n l).
Proof.
  revert l. induction n as [|n IH]; intros l Hnd H Hx; [exact H|].
  destruct H as [l Hy | z l H]; simpl in *.
  - apply NoDup_cons in Hnd as [Hnot _]. rewrite list_elem_of_In in Hnot.
    exfalso. apply Hnot. eapply skipn_In. exact Hx.
  - apply NoDup_cons in Hnd as [_ Hnd]. now apply IH.
Qed.

Lemma before_firstn (n : nat) (x y : A) (l : list A) :
  NoDup l -> before x y l -> In y (firstn n l) -> before x y (firstn n l).
Proof.
  revert l. induction n as [|n IH]; intros l Hnd H Hy; [destruct l; destruct Hy|].
  destruct H as [l Hyl | z l H]; simpl in *;
    apply NoDup_cons in Hnd as [Hnot Hnd]; rewrite list_elem_of_In in Hnot.
  - apply before_head. destruct Hy as [->|Hy]; [contradiction | exact Hy].
  - apply before_tail. destruct Hy as [->|Hy]; [|now apply IH].
    exfalso. apply Hnot. now apply before_In in H.
Qed.

Lemma StronglySorted_skipn (R : A -> A -> Prop) (n : nat) (l : list A) :
  StronglySorted R l -> StronglySorted R (skipn n l).
Proof.
  revert l. induction n as [|n IH]; intros l H; [exact H|].
  destruct H; simpl; [constructor | now apply IH].
Qed.

Lemma StronglySorted_firstn (R : A -> A -> Prop) (n : nat) (l : list A) :
  StronglySorted R l -> StronglySorted R (firstn n l).
Proof.
  revert l. induction n as [|n IH]; intros l H; [constructor|].
  destruct H as [|x l H Hx]; simpl; constructor; [now apply IH|].
  rewrite List.Forall_forall in *. intros v Hv. apply Hx.
  eapply firstn_In. exact Hv.
Qed.
End Slices.

Lemma NoDup_ids (rows : list ContentItem) : NoDup (map id rows) -> NoDup rows.
Proof.
  induction rows as [|x rows IH]; simpl; intros H; [constructor|].
  apply NoDup_cons in H as [Hx H]. constructor; [|auto].
  intros Hin. apply Hx. apply list_elem_of_In, in_map.
  now apply list_elem_of_In.
Qed.

Lemma NoDup_filter_bool {A} (f : A -> bool) (l : list A) :
  NoDup l -> NoDup (List.filter f l).
Proof.
  induction l as [|x l IH]; simpl; intros H; [constructor|].
  apply NoDup_cons in H as [Hx H]. destruct (f x); [|auto].
  constructor; [|auto]. intros Hin. apply Hx.
  apply list_elem_of_In. apply list_elem_of_In in Hin.
  now apply List.filter_In in Hin.
Qed.

Lemma NoDup_skipn {A} (n : nat) (l : list A) : NoDup l -> NoDup (skipn n l).
Proof.
  revert l. induction n as [|n IH]; intros [|x l] H; simpl; auto.
  apply NoDup_cons in H as [_ H]. auto.
Qed.

Lemma NoDup_perm {A} (l l' : list A) : Permutation l l' -> NoDup l -> NoDup l'.
Proof.
  induction 1 as [|x l l' Hp IH|x y l|l l' l'' H1 IH1 H2 IH2]; intros H; auto.
  - apply NoDup_cons in H as [Hx H]. constructor; [|auto].
    intros Hin. apply Hx. apply list_elem_of_In. apply list_elem_of_In in Hin.
    eapply Permutation_in; [apply Permutation_sym|]; eassumption.
  - apply NoDup_cons in H as [Hy H]. apply NoDup_cons in H as [Hx H].
    rewrite list_elem_of_In in Hy, Hx. simpl in Hy.
    constructor; [|constructor; [|exact H]]; rewrite list_elem_of_In; simpl;
      intuition congruence.
Qed.

(** The rows a listing selects are the rows that pass one test. *)
Lemma get_content_selects (c : option string) (p : option bool)
    (rows : list ContentItem) :
  exists f : ContentItem -> bool,
    match p with
    | Some v =>
        published_is v
          match c with
          | Some s => if Py.nonempty s then category_is s rows else rows
          | None => rows
          end
    | None =>
        match c with
        | Some s => if Py.nonempty s then category_is s rows else rows
        | None => rows
        end
    end = List.filter f rows.
Proof.
  assert (Hall : rows = List.filter (fun _ => true) rows).
  { induction rows as [|x rows IH]; simpl; congruence. }
  assert (Hc : exists g, match c with
                         | Some s => if Py.nonempty s then category_is s rows else rows
                         | None => rows
                         end = List.filter g rows).
  { destruct c as [s|]; [destruct (Py.nonempty s)|]; unfold category_is; eauto. }
  destruct Hc as [g ->]. destruct p as [v|]; [|eauto].
  exists (fun r => g r && Bool.eqb (published r) v). unfold published_is.
  induction rows as [|x rows IH]; simpl; [reflexivity|].
  assert (Hrows : rows = List.filter (fun _ => true) rows).
  { clear. induction rows as [|x rows IH]; simpl; congruence. }
  specialize (IH Hrows).
  destruct (g x); simpl; [destruct (Bool.eqb (published x) v)|]; congruence.
Qed.

Lemma get_content_run (c : option string) (p : option bool)
    (limit offset : Z) (env : Env) (w : World) :
  run (get_content c p limit offset) env w
  = (Return
       (sql_limit limit
          (sql_offset offset
             (order_by_desc created_at
                match p with
                | Some v =>
                    published_is v
                      match c with
                      | Some s =>
                          if Py.nonempty s
                          then category_is s (content_items w)
                          else content_items w
                      | None => content_items w
                      end
                | None =>
                    match c with
                    | Some s =>
                        if Py.nonempty s
                        then category_is s (content_items w)
                        else content_items w
                    | None => content_items w
                    end
                end))), w).
Proof. now destruct c as [[|? ?]|], p. Qed.

(** C5, as amended: after any history of requests, a listing with limit
    and offset in the range of a SQLite INTEGER is sorted by [created_at],
    newest first; and of two items of the listing, [a] inserted before
    [b], [b] comes first when its [created_at] is strictly later than that
    of [a], and [a] comes first otherwise: items with equal [created_at]
    keep their insertion order. *)
Theorem get_content_sorted
    (history : list (Request * Env)) (c : option string) (p : option bool)
    (limit offset : Z) (env : Env) :
  int64 limit -> int64 offset ->
  let w := serve_all fromisoformat history in
  exists page,
    run (get_content c p limit offset) env w = (Return page, w)
    /\ StronglySorted (fun a b => created_at b <= created_at a) page
    /\ forall a b,
         before a b (content_items w) -> In a page -> In b page ->
         (created_at a < created_at b -> before b a page)
         /\ (created_at b <= created_at a -> before a b page).
Proof.
  intros _ _ w. rewrite get_content_run.
  destruct (get_content_selects c p (content_items w)) as [f ->].
  eexists. split; [reflexivity|].
  destruct (serve_all_well_formed history) as [Hnd _]. fold w in Hnd.
  apply NoDup_ids in Hnd.
  set (q := List.filter f (content_items w)).
  set (sorted := order_by_desc created_at q).
  assert (Hq : NoDup sorted).
  { eapply NoDup_perm; [apply order_by_desc_perm|].
    now apply NoDup_filter_bool. }
  split.
  - unfold sql_limit, sql_offset. destruct (limit <? 0)%Z.
    + apply StronglySorted_skipn, order_by_desc_sorted.
    + apply StronglySorted_firstn, StronglySorted_skipn, order_by_desc_sorted.
  - intros a b Hab Ha Hb.
    assert (Hpage : forall x y,
               before x y sorted ->
               In x (sql_limit limit (sql_offset offset sorted)) ->
               In y (sql_limit limit (sql_offset offset sorted)) ->
               before x y (sql_limit limit (sql_offset offset sorted))).
    { unfold sql_limit, sql_offset. intros x y Hxy Hx Hy.
      destruct (limit <? 0)%Z.
      - now apply before_skipn.
      - apply before_firstn; [now apply NoDup_skipn| |exact Hy].
        apply before_skipn; [exact Hq | exact Hxy |].
        eapply firstn_In. exact Hx. }
    assert (Hin : forall x,
               In x (sql_limit limit (sql_offset offset sorted)) -> In x q).
    { unfold sql_limit, sql_offset. intros x Hx.
      apply (In_order_by_desc created_at).
      destruct (limit <? 0)%Z; [|apply firstn_In in Hx];
        eapply skipn_In; exact Hx. }
    assert (Hq' : before a b q).
    { pose proof (Hin a Ha) as Ha'. pose proof (Hin b Hb) as Hb'.
      unfold q in Ha', Hb'. apply List.filter_In in Ha', Hb'.
      apply before_filter; tauto. }
    destruct (order_by_desc_before created_at a b q Hq') as [H1 H2].
    split; intros Hk; apply Hpage; auto.
Qed.

End Properties.

(** * The properties on the sample requests *)

(** * The properties on the sample requests *)

(** C2: [create] with a valid category, an image and an [event_date] that
    does not parse raises the 400 error and inserts no row, but the image
    has been written to the upload directory before the date is parsed,
    and it stays there. *)
Theorem create_content_bad_date_keeps_upload :
  run (create_content Iso.fromisoformat "Q1 Update" "..." "news" "Jane" None
         false (Some "not-a-date") None (Some Sample.png))
      (Sample.ticking 1000) empty_world
  = (Raise (HTTPException 400 "Invalid event_date format. Use ISO format."),
     {| content_items := [];
        uploads := {[ Sample.chart_name := "PNG-bytes" ]} |})
  /\ uploads empty_world !! Sample.chart_name = None
  /\ ({[ Sample.chart_name := "PNG-bytes" ]} : gmap string string)
       !! Sample.chart_name = Some "PNG-bytes".
Proof. vm_compute. repeat split. Qed.

(** C4, the claim as stated fails: under a clock that advances between
    its two readings, the entity that the example [create] returns has
    [created_at] different from [updated_at]. *)
Lemma create_content_timestamps_differ :
  run (create_content Iso.fromisoformat "Q1 Update" "..." "news" "Jane" None
         false None None None) (Sample.ticking 1000) empty_world
  = (Return Sample.q1_row, Sample.one_item)
  /\ created_at Sample.q1_row <> updated_at Sample.q1_row.
Proof. split; [reflexivity | discriminate]. Qed.

(** C5, the claim as stated fails: of two items created in sequence, A
    then B, A is listed first when both were stamped with the same
    reading of the clock, and also when the clock was set back between the
    two creations; in neither listing does B come before A. *)
Lemma get_content_second_not_first :
  run (get_content None None 20 0) (Sample.frozen 0)
      (serve_all Iso.fromisoformat Sample.tie)
  = (Return [Sample.news 1 "A" None 1000 1000; Sample.news 2 "B" None 1000 1000],
     serve_all Iso.fromisoformat Sample.tie)
  /\ ~ before (Sample.news 2 "B" None 1000 1000) (Sample.news 1 "A" None 1000 1000)
         [Sample.news 1 "A" None 1000 1000; Sample.news 2 "B" None 1000 1000]
  /\ run (get_content None None 20 0) (Sample.frozen 0)
         (serve_all Iso.fromisoformat Sample.set_back)
     = (Return [Sample.news 1 "A" None 2000 2001; Sample.news 2 "B" None 1000 1001],
        serve_all Iso.fromisoformat Sample.set_back)
  /\ ~ before (Sample.news 2 "B" None 1000 1001) (Sample.news 1 "A" None 2000 2001)
         [Sample.news 1 "A" None 2000 2001; Sample.news 2 "B" None 1000 1001].
Proof.
  split; [reflexivity|]. split; [|split; [reflexivity|]].
  - intros H. inversion H as [l Hin | z l H1]; subst.
    inversion H1 as [l Hin | z l H2]; subst; [destruct Hin | inversion H2].
  - intros H. inversion H as [l Hin | z l H1]; subst.
    inversion H1 as [l Hin | z l H2]; subst; [destruct Hin | inversion H2].
Qed.

(** The example [create] with the category "blog", which is not one of the
    three: nothing is stored. *)
Lemma create_content_unknown_category_witness :
  ~ In "blog" valid_categories
  /\ run (create_content Iso.fromisoformat "Q1 Update" "..." "blog" "Jane"
            None false (Some "not-a-date") None (Some Sample.png))
         (Sample.ticking 1000) Sample.one_item
     = (Raise (HTTPException 400
                 "Category must be one of: ['blogs', 'events', 'news']"),
        Sample.one_item).
Proof.
  assert (H : ~ In "blog" valid_categories)
    by (simpl; intros [E|[E|[E|[]]]]; discriminate E).
  split; [exact H|].
  exact (proj1 (create_content_unknown_category Iso.fromisoformat
                  "Q1 Update" "..." "blog" "Jane" None false
                  (Some "not-a-date") None (Some Sample.png)
                  (Sample.ticking 1000) Sample.one_item H)).
Defined.

(** An update of the example item with a new title, [published], an image
    and a date that does not parse: the store is as before. *)
Lemma update_content_unparsable_event_date_witness :
  (exists r, In r (content_items Sample.one_item) /\ id r = 1)
  /\ Iso.fromisoformat (Py.replace "Z" "+00:00" "not-a-date") = None
  /\ run (update_content Iso.fromisoformat 1 (Some "Q1 Update, revised") None
            None None (Some true) (Some "not-a-date") None (Some Sample.png))
         (Sample.ticking 2000) Sample.one_item
     = (Raise (HTTPException 400 "Invalid event_date format. Use ISO format."),
        Sample.one_item).
Proof.
  assert (H1 : exists r, In r (content_items Sample.one_item) /\ id r = 1)
    by (exists Sample.q1_row; split; [left; reflexivity | reflexivity]).
  assert (H2 : Iso.fromisoformat (Py.replace "Z" "+00:00" "not-a-date") = None)
    by reflexivity.
  split; [exact H1|]. split; [exact H2|].
  exact (proj1 (update_content_unparsable_event_date Iso.fromisoformat 1
                  (Some "Q1 Update, revised") None None None (Some true)
                  "not-a-date" None (Some Sample.png) (Sample.ticking 2000)
                  Sample.one_item H1 H2)).
Defined.

(** The example [create] of the specification. *)
Lemma create_content_defaults_witness :
  In "news" valid_categories
  /\ exists r w',
       run (create_content Iso.fromisoformat "Q1 Update" "..." "news" "Jane"
              None false None None None) (Sample.ticking 1000) empty_world
       = (Return r, w')
       /\ published r = false /\ image_url r = None /\ id r = 1.
Proof.
  assert (H : In "news" valid_categories) by (simpl; auto).
  split; [exact H|].
  destruct (create_content_defaults Iso.fromisoformat "Q1 Update" "..." "news"
              "Jane" None None (Sample.ticking 1000) empty_world H)
    as (r & w' & Hrun & Hp & Him & Hid & _).
  exists r, w'. auto.
Defined.

(** A listing of the two items created under a clock that stands still. *)
Lemma get_content_sorted_witness :
  int64 20 /\ int64 0
  /\ exists page,
    run (get_content None None 20 0) (Sample.frozen 0)
        (serve_all Iso.fromisoformat Sample.tie)
    = (Return page, serve_all Iso.fromisoformat Sample.tie)
    /\ StronglySorted (fun a b => created_at b <= created_at a) page.
Proof.
  assert (H20 : int64 20) by (unfold int64; lia).
  assert (H0 : int64 0) by (unfold int64; lia).
  split; [exact H20|]. split; [exact H0|].
  destruct (get_content_sorted Iso.fromisoformat Sample.tie None None 20 0
              (Sample.frozen 0) H20 H0) as (page & Hrun & Hsorted & _).
  exists page. auto.
Defined.

(** An update of the example item with no field, and one that publishes
    it. *)
Lemma update_content_partial_witness :
  row_of Sample.one_item 1 = Some Sample.q1_row
  /\ published Sample.q1_row = false
  /\ (exists w',
        run (update_content Iso.fromisoformat 1 None None None None None None
               None None) (Sample.ticking 2000) Sample.one_item
        = (Return (set_updated_at 2000 Sample.q1_row), w'))
  /\ (exists t w',
        (t = 2000 \/ t = 2001)
        /\ run (update_content Iso.fromisoformat 1 None None None None
                  (Some true) None None None) (Sample.ticking 2000)
               Sample.one_item
           = (Return (set_updated_at t (set_published true Sample.q1_row)), w')).
Proof.
  assert (H : row_of Sample.one_item 1 = Some Sample.q1_row) by reflexivity.
  assert (Hp : published Sample.q1_row = false) by reflexivity.
  split; [exact H|]. split; [exact Hp|].
  destruct (update_content_partial Iso.fromisoformat 1 None None None None
              None None None None (Sample.ticking 2000) Sample.one_item
              Sample.q1_row H) as (_ & Htouch & Hpublish).
  split; [exact Htouch | exact (Hpublish Hp)].
Defined.


(** The deletion, twice, of an item created with an image. *)
Lemma delete_content_twice_witness :
  row_of (serve_all Iso.fromisoformat Sample.with_image) 1
  = Some (Sample.news 1 "Q1 Update"
            (Some ("/uploads/" ++ Sample.chart_name)) 1000 1001)
  /\ exists w',
       run (delete_content 1) (Sample.frozen 0)
           (serve_all Iso.fromisoformat Sample.with_image)
       = (Return "Content item deleted successfully", w')
       /\ uploads w' !! Sample.chart_name = None
       /\ run (delete_content 1) (Sample.frozen 0) w'
          = (Raise (HTTPException 404 "Content item not found"), w').
Proof.
  assert (H : row_of (serve_all Iso.fromisoformat Sample.with_image) 1
              = Some (Sample.news 1 "Q1 Update"
                        (Some ("/uploads/" ++ Sample.chart_name)) 1000 1001))
    by reflexivity.
  split; [exact H|].
  destruct (delete_content_twice Iso.fromisoformat Sample.with_image 1
              (Sample.frozen 0) (Sample.frozen 0) _ H)
    as (w' & Hrun & _ & _ & Hblob & Hagain & _).
  exists w'. split; [exact Hrun|]. split; [|exact Hagain].
  exact (proj2 (Hblob _ eq_refl)).
Defined.

(** * Further properties of the handlers *)

Section Further.

Variable fromisoformat : string -> option datetime.

Ltac steps :=
  unfold run, upload_image, create_content, get_content, get_content_item,
    update_content, delete_content, parse_event_date, require_image,
    content_type_startswith, save_upload_file, unlink_image,
    db_add_commit_refresh, db_commit_refresh, db_delete_commit,
    query_first_by_id, path_exists, unlink, write_file, try_except,
    when, bind, ret, raise, get_world, put_world, now, new_uuid.

Ltac split_run H :=
  repeat match type of H with
         | context [match ?x with _ => _ end] =>
             lazymatch x with
             | context [match _ with _ => _ end] => fail
             | _ => destruct x eqn:?; cbn in H; try discriminate H
             end
         end.

Local Arguments assign_fields : simpl never.

(** ** Uploads *)

Lemma stored_name_reference (u : N) (name : string) :
  let n := str_uuid u ++ snd (Py.splitext name) in
  Py.basename ("/uploads/" ++ n) = n /\ Py.occurs "/" n = false.
Proof.
  cbv zeta.
  assert (H : Py.occurs "/" (str_uuid u ++ snd (Py.splitext name)) = false)
    by now rewrite occurs_app, str_uuid_no_slash, splitext_no_slash.
  split; [|exact H].
  revert H. generalize (str_uuid u ++ snd (Py.splitext name)). intros n H.
  unfold Py.basename, Py.rfind. simpl. now rewrite rfind_from_absent.
Qed.

(** X1: [upload_image] of a file whose declared content type does not
    start with [image/] raises the 400 error "File must be an image" and
    writes nothing. *)
Theorem upload_image_not_an_image
    (f : UploadFile) (ct : string) (env : Env) (w : World) :
  content_type f = Some ct ->
  Py.startswith ct "image/" = false ->
  run (upload_image f) env w
  = (Raise (HTTPException 400 "File must be an image"), w).
Proof.
  intros Hct Himg. steps. rewrite Hct. cbn. rewrite Himg. reflexivity.
Qed.

(** X2: [upload_image] of an image file whose stored name, the uuid
    followed by the extension of the original name, is one the file
    system accepts returns the reference [/uploads/<name>] and the
    original file name; [<name>] holds no path separator; afterwards the
    upload directory maps [<name>] to the uploaded bytes and is otherwise
    as before, and the table is untouched. *)
Theorem upload_image_stores
    (f : UploadFile) (ct name : string) (env : Env) (w : World) :
  content_type f = Some ct ->
  Py.startswith ct "image/" = true ->
  filename f = Some name ->
  file_name_ok (str_uuid (uuid4 env 0) ++ snd (Py.splitext name)) ->
  exists url w',
    run (upload_image f) env w = (Return (url, Some name), w')
    /\ url = "/uploads/" ++ Py.basename url
    /\ Py.basename url = str_uuid (uuid4 env 0) ++ snd (Py.splitext name)
    /\ Py.occurs "/" (Py.basename url) = false
    /\ uploads w' = <[Py.basename url := file f]> (uploads w)
    /\ uploads w' !! Py.basename url = Some (file f)
    /\ content_items w' = content_items w.
Proof.
  intros Hct Himg Hname _.
  destruct (stored_name_reference (uuid4 env 0) name) as [Hb Hs].
  cbv zeta in Hb, Hs.
  exists ("/uploads/" ++ str_uuid (uuid4 env 0) ++ snd (Py.splitext name)).
  exists {| content_items := content_items w;
            uploads := <[str_uuid (uuid4 env 0) ++ snd (Py.splitext name)
                         := file f]> (uploads w) |}.
  split.
  { steps. rewrite Hct. cbn. rewrite Himg. cbn. rewrite Hname. reflexivity. }
  cbn [uploads content_items]. rewrite Hb.
  repeat match goal with |- _ /\ _ => split end;
    try reflexivity; try exact Hs.
  apply lookup_insert_eq.
Qed.

(** ** Creation *)

(** X3: [create] with a valid category and a file part whose declared
    content type does not start with [image/] raises the 400 error "File
    must be an image"; no row is inserted and no file is written,
    whatever the [event_date]. *)
Theorem create_content_not_an_image
    (t c cat a : string) (ex : option string) (p : bool)
    (ed tg : option string) (im : option UploadFile) (f : UploadFile)
    (ct : string) (env : Env) (w : World) :
  In cat valid_categories ->
  uploaded im = Some f ->
  content_type f = Some ct ->
  Py.startswith ct "image/" = false ->
  run (create_content fromisoformat t c cat a ex p ed tg im) env w
  = (Raise (HTTPException 400 "File must be an image"), w).
Proof.
  intros Hcat Hup Hct Himg. apply valid_category_spec in Hcat.
  steps. rewrite Hcat, Hup. cbn. rewrite Hct. cbn. rewrite Himg. reflexivity.
Qed.

(** X4: [create] with a valid category, an image file whose stored name
    the file system accepts and an [event_date] that is absent, empty or
    parsable returns an entity whose [image_url] is the reference
    [/uploads/<name>]; afterwards the upload directory maps [<name>] to
    the uploaded bytes, and the query by the new id finds the entity. *)
Theorem create_content_with_image
    (t c cat a : string) (ex : option string) (p : bool)
    (ed tg : option string) (f : UploadFile) (name ct : string)
    (env : Env) (w : World) :
  In cat valid_categories ->
  filename f = Some name -> Py.nonempty name = true ->
  content_type f = Some ct -> Py.startswith ct "image/" = true ->
  file_name_ok (str_uuid (uuid4 env 0) ++ snd (Py.splitext name)) ->
  (forall s, ed = Some s -> Py.nonempty s = true ->
             fromisoformat (Py.replace "Z" "+00:00" s) <> None) ->
  exists r w' url,
    run (create_content fromisoformat t c cat a ex p ed tg (Some f)) env w
    = (Return r, w')
    /\ image_url r = Some url
    /\ url = "/uploads/" ++ Py.basename url
    /\ Py.basename url = str_uuid (uuid4 env 0) ++ snd (Py.splitext name)
    /\ uploads w' !! Py.basename url = Some (file f)
    /\ row_of w' (id r) = Some r.
Proof.
  intros Hcat Hname Hne Hct Himg _ Hdate.
  destruct (stored_name_reference (uuid4 env 0) name) as [Hb _].
  cbv zeta in Hb.
  assert (Hrun : exists r w',
             run (create_content fromisoformat t c cat a ex p ed tg (Some f))
                 env w = (Return r, w')).
  { apply valid_category_spec in Hcat.
    steps. unfold uploaded. rewrite Hcat, Hname. cbn. rewrite Hne, Hct. cbn.
    rewrite Himg. cbn. rewrite Hname. cbn.
    destruct ed as [s|]; [|eauto].
    destruct (Py.nonempty s) eqn:Hs; [|eauto]. cbn.
    destruct (fromisoformat (Py.replace "Z" "+00:00" s)) eqn:Hp; [eauto|].
    now destruct (Hdate s eq_refl Hs). }
  destruct Hrun as (r & w' & Hrun). exists r, w'.
  pose proof (create_content_returned fromisoformat _ _ _ _ _ _ _ _ _ _ _ _ _ Hrun)
    as (_ & Hrows & Hid & _ & _ & _ & _ & _ & _ & _ & _ & _ & _ & Him).
  unfold uploaded in Him. rewrite Hname in Him. cbn in Him. rewrite Hne in Him.
  destruct Him as (name' & Hn & Hurl & Hup).
  assert (name' = name) by congruence. subst name'.
  eexists. split; [exact Hrun|]. split; [exact Hurl|].
  rewrite Hb. split; [reflexivity|]. split; [reflexivity|].
  split.
  - rewrite Hup. apply lookup_insert_eq.
  - unfold row_of. rewrite Hrows. now apply query_first_by_id_appended.
Qed.

(** ** Updates *)

(** X5: [update] of an id, in the range of a SQLite INTEGER, that no
    stored row carries raises the 404 error and changes nothing, whatever
    fields, date and image it was given. *)
Theorem update_content_not_found
    (i : Z) (ti c ex a : option string) (p : option bool)
    (ed tg : option string) (im : option UploadFile) (env : Env) (w : World) :
  int64 i ->
  (forall r, In r (content_items w) -> id r <> i) ->
  run (update_content fromisoformat i ti c ex a p ed tg im) env w
  = (Raise (HTTPException 404 "Content item not found"), w).
Proof.
  intros _ Habsent. steps. cbn.
  now rewrite (query_first_by_id_absent _ _ Habsent).
Qed.

(** X6: [update] of a stored item with a file part whose declared content
    type does not start with [image/] raises a 400 error and changes
    nothing: the fields supplied in the same call are not stored and the
    old image is kept. *)
Theorem update_content_not_an_image
    (i : Z) (ti c ex a : option string) (p : option bool)
    (ed tg : option string) (im : option UploadFile) (f : UploadFile)
    (ct : string) (env : Env) (w : World) (r : ContentItem) :
  row_of w i = Some r ->
  uploaded im = Some f ->
  content_type f = Some ct ->
  Py.startswith ct "image/" = false ->
  exists detail,
    run (update_content fromisoformat i ti c ex a p ed tg im) env w
    = (Raise (HTTPException 400 detail), w)
    /\ ((forall s, ed = Some s ->
                   fromisoformat (Py.replace "Z" "+00:00" s) <> None) ->
        detail = "File must be an image").
Proof.
  unfold row_of. intros Hq Hup Hct Himg.
  destruct ed as [s|].
  - destruct (fromisoformat (Py.replace "Z" "+00:00" s)) as [d|] eqn:Hp.
    + exists "File must be an image". split; [|reflexivity].
      steps. cbn. rewrite Hq. cbn. rewrite Hp. cbn. rewrite Hup. cbn.
      rewrite Hct. cbn. rewrite Himg. reflexivity.
    + exists "Invalid event_date format. Use ISO format.". split.
      * steps. cbn. rewrite Hq. cbn. rewrite Hp. reflexivity.
      * intros H. now destruct (H s eq_refl).
  - exists "File must be an image". split; [|reflexivity].
    steps. cbn. rewrite Hq. cbn. rewrite Hup. cbn.
    rewrite Hct. cbn. rewrite Himg. reflexivity.
Qed.

Lemma update_content_returned_uploads
    (i : Z) (ti c ex a : option string) (p : option bool)
    (ed tg : option string) (f : UploadFile) (name : string) (env : Env)
    (w w' : World) (r r' : ContentItem) :
  row_of w i = Some r ->
  filename f = Some name -> Py.nonempty name = true ->
  run (update_content fromisoformat i ti c ex a p ed tg (Some f)) env w
  = (Return r', w') ->
  uploads w'
  = <[str_uuid (uuid4 env 0) ++ snd (Py.splitext name) := file f]>
      (match image_url r with
       | Some old =>
           if Py.nonempty old then delete (Py.basename old) (uploads w)
           else uploads w
       | None => uploads w
       end).
Proof.
  unfold row_of. intros Hq Hname Hne H.
  pose proof (assign_fields_frame ti c ex a p tg r) as Hx. cbv zeta in Hx.
  revert H. steps. unfold uploaded. cbn. rewrite Hq. cbn.
  rewrite Hname. cbn. rewrite Hne.
  set (x := assign_fields ti c ex a p tg r) in *. clearbody x.
  destruct Hx as (_ & _ & _ & _ & X5 & _). intros H.
  rewrite <- X5.
  split_run H.
  all: injection H as _ Hw; subst w'; cbn.
  all: try (injection Hname as ->).
  all: try reflexivity.
  all: rewrite delete_id; [reflexivity|assumption].
Qed.

(** X7: [update] of a stored item with a new image file whose stored name
    the file system accepts (and a date that is absent or parsable)
    returns the entity with [image_url] set to the new reference
    [/uploads/<name>]; afterwards the upload directory maps [<name>] to
    the new bytes, the file the old [image_url] named, if it is another
    one, is gone, and every other file is as before. *)
Theorem update_content_replaces_image
    (i : Z) (ti c ex a : option string) (p : option bool)
    (ed tg : option string) (f : UploadFile) (name ct : string)
    (env : Env) (w : World) (r : ContentItem) :
  row_of w i = Some r ->
  filename f = Some name -> Py.nonempty name = true ->
  content_type f = Some ct -> Py.startswith ct "image/" = true ->
  file_name_ok (str_uuid (uuid4 env 0) ++ snd (Py.splitext name)) ->
  (forall s, ed = Some s -> fromisoformat (Py.replace "Z" "+00:00" s) <> None) ->
  let new := str_uuid (uuid4 env 0) ++ snd (Py.splitext name) in
  exists r' w',
    run (update_content fromisoformat i ti c ex a p ed tg (Some f)) env w
    = (Return r', w')
    /\ image_url r' = Some ("/uploads/" ++ new)
    /\ Py.basename ("/uploads/" ++ new) = new
    /\ uploads w' !! new = Some (file f)
    /\ (forall old, image_url r = Some old -> Py.nonempty old = true ->
                    Py.basename old <> new ->
                    uploads w' !! Py.basename old = None)
    /\ (forall n, n <> new ->
                  (forall old, image_url r = Some old -> n <> Py.basename old) ->
                  uploads w' !! n = uploads w !! n).
Proof.
  intros Hq Hname Hne Hct Himg _ Hdate new.
  destruct (stored_name_reference (uuid4 env 0) name) as [Hb _].
  cbv zeta in Hb. fold new in Hb.
  assert (Hrun : exists r' w',
             run (update_content fromisoformat i ti c ex a p ed tg (Some f))
                 env w = (Return r', w')).
  { unfold row_of in Hq. steps. unfold uploaded. cbn. rewrite Hq. cbn.
    rewrite Hname. cbn. rewrite Hne.
    repeat first
      [ rewrite Hct | rewrite Himg | rewrite Hname | progress cbn
      | match goal with
        | |- context [match ?x with _ => _ end] =>
            lazymatch x with
            | context [match _ with _ => _ end] => fail
            | _ => destruct x eqn:?
            end
        end ].
    all: try (eexists; eexists; reflexivity).
    all: exfalso; eapply Hdate; [reflexivity | eassumption]. }
  destruct Hrun as (r' & w' & Hrun). exists r', w'.
  pose proof (update_content_returned_uploads i ti c ex a p ed tg f name env
                w w' r r' Hq Hname Hne Hrun) as Hup. fold new in Hup.
  pose proof (update_content_returned fromisoformat _ _ _ _ _ _ _ _ _ _ _ _ _ _ Hq Hrun)
    as Hu. cbv zeta in Hu.
  destruct Hu as (_ & _ & _ & _ & _ & _ & _ & _ & _ & _ & U11 & _).
  unfold uploaded in U11. rewrite Hname in U11. cbn in U11. rewrite Hne in U11.
  destruct U11 as (name' & Hn & Hurl).
  assert (name' = name) by congruence. subst name'. fold new in Hurl.
  split; [exact Hrun|]. split; [exact Hurl|]. split; [exact Hb|].
  rewrite Hup. split; [apply lookup_insert_eq|]. split.
  - intros old Hold Hne' Hdiff. rewrite Hold, Hne'.
    rewrite lookup_insert_ne by congruence. apply lookup_delete_eq.
  - intros n Hn' Hold. rewrite lookup_insert_ne by congruence.
    destruct (image_url r) as [old|]; [|reflexivity].
    destruct (Py.nonempty old); [|reflexivity].
    apply lookup_delete_ne. specialize (Hold old eq_refl). congruence.
Qed.

(** ** Listings *)

Lemma get_content_members (c : option string) (p : option bool)
    (limit offset : Z) (env : Env) (w : World) :
  exists page,
    run (get_content c p limit offset) env w = (Return page, w)
    /\ (forall r,
          In r page ->
          In r (content_items w)
          /\ (forall s, c = Some s -> Py.nonempty s = true -> category r = s)
          /\ (forall v, p = Some v -> published r = v))
    /\ (limit < 0 -> offset <= 0 ->
        forall r,
          In r (content_items w) ->
          (forall s, c = Some s -> Py.nonempty s = true -> category r = s) ->
          (forall v, p = Some v -> published r = v) ->
          In r page).
Proof.
  clear fromisoformat.
  rewrite get_content_run. eexists. split; [reflexivity|].
  set (q := match p with Some v => _ | None => _ end).
  assert (Hq : forall r,
             In r q <->
             In r (content_items w)
             /\ (forall s, c = Some s -> Py.nonempty s = true -> category r = s)
             /\ (forall v, p = Some v -> published r = v)).
  { intros r. unfold q, published_is, category_is.
    destruct p as [v|], c as [s|]; try destruct (Py.nonempty s) eqn:Hs;
      rewrite ?List.filter_In, ?String.eqb_eq, ?Bool.eqb_true_iff.
    all: split;
      [ intros H; repeat split; try tauto; intros; simplify_eq;
        try tauto; congruence
      | intros (Hin & Hc & Hp);
        try specialize (Hp _ eq_refl); try specialize (Hc _ eq_refl);
        try specialize (Hc Hs); tauto ]. }
  split.
  - intros r Hr. apply Hq. apply (In_order_by_desc created_at).
    unfold sql_limit, sql_offset in Hr.
    destruct (limit <? 0)%Z; [|apply firstn_In in Hr]; eapply skipn_In; exact Hr.
  - intros Hl Ho r Hin Hc Hp. unfold sql_limit, sql_offset.
    apply Z.ltb_lt in Hl. rewrite Hl.
    replace (Z.to_nat offset) with 0%nat by lia. simpl.
    apply In_order_by_desc. apply Hq. auto.
Qed.

(** X8: a listing with limit and offset in the range of a SQLite INTEGER
    changes nothing; every item it returns is stored, has the requested
    category when a non-empty one was given, and has the requested
    [published] flag when one was given; and with a negative limit and no
    offset it returns every stored item that meets these conditions. *)
Theorem get_content_filters
    (c : option string) (p : option bool) (limit offset : Z) (env : Env)
    (w : World) :
  int64 limit -> int64 offset ->
  exists page,
    run (get_content c p limit offset) env w = (Return page, w)
    /\ (forall r,
          In r page ->
          In r (content_items w)
          /\ (forall s, c = Some s -> Py.nonempty s = true -> category r = s)
          /\ (forall v, p = Some v -> published r = v))
    /\ (limit < 0 -> offset <= 0 ->
        forall r,
          In r (content_items w) ->
          (forall s, c = Some s -> Py.nonempty s = true -> category r = s) ->
          (forall v, p = Some v -> published r = v) ->
          In r page).
Proof. intros _ _. apply get_content_members. Qed.

Lemma firstn_plus {A} (a b : nat) (l : list A) :
  firstn (a + b) l = (firstn a l ++ firstn b (skipn a l))%list.
Proof.
  revert l. induction a as [|a IH]; intros [|x l]; simpl; try reflexivity.
  - now destruct b.
  - now rewrite IH.
Qed.

Lemma skipn_plus {A} (a b : nat) (l : list A) :
  skipn (a + b) l = skipn b (skipn a l).
Proof.
  revert l. induction a as [|a IH]; intros [|x l]; simpl; try reflexivity.
  - now destruct b.
  - apply IH.
Qed.

Lemma firstn_length_le {A} (n : nat) (l : list A) :
  (length (firstn n l) <= n)%nat.
Proof.
  revert l. induction n as [|n IH]; intros [|x l]; simpl; try lia.
  specialize (IH l). lia.
Qed.

(** X9: pages compose.  For a non-negative offset and limits, with
    [o + l1] and [l1 + l2] still in the range of a SQLite INTEGER, the
    page of [l1] items at offset [o] followed by the page of [l2] items at
    offset [o + l1] is the page of [l1 + l2] items at offset [o]; and a
    page holds at most as many items as its limit. *)
Theorem get_content_pages
    (c : option string) (p : option bool) (l1 l2 o : Z) (env : Env)
    (w : World) :
  0 <= o -> 0 <= l1 -> 0 <= l2 ->
  int64 (o + l1) -> int64 (l1 + l2) ->
  exists p1 p2,
    run (get_content c p l1 o) env w = (Return p1, w)
    /\ run (get_content c p l2 (o + l1)) env w = (Return p2, w)
    /\ run (get_content c p (l1 + l2) o) env w = (Return (p1 ++ p2)%list, w)
    /\ (length p1 <= Z.to_nat l1)%nat.
Proof.
  intros Ho H1 H2 _ _. rewrite !get_content_run.
  set (q := order_by_desc created_at _). unfold sql_limit, sql_offset.
  destruct (Z.ltb_spec l1 0); [lia|]. destruct (Z.ltb_spec l2 0); [lia|].
  destruct (Z.ltb_spec (l1 + l2) 0); [lia|].
  eexists. eexists. split; [reflexivity|]. split; [reflexivity|].
  split; [|apply firstn_length_le].
  rewrite !Z2Nat.inj_add by lia. now rewrite firstn_plus, skipn_plus.
Qed.

(** X10: the category endpoints, with limit and offset in the range of a
    SQLite INTEGER, return only items of their category with the
    requested [published] flag, all of them stored. *)
Theorem category_endpoints
    (published_flag : bool) (limit offset : Z) (env : Env) (w : World) :
  int64 limit -> int64 offset ->
  (exists page,
      run (get_blogs published_flag limit offset) env w = (Return page, w)
      /\ forall r, In r page ->
                  In r (content_items w) /\ category r = "blogs"
                  /\ published r = published_flag)
  /\ (exists page,
        run (get_events published_flag limit offset) env w = (Return page, w)
        /\ forall r, In r page ->
                    In r (content_items w) /\ category r = "events"
                    /\ published r = published_flag)
  /\ (exists page,
        run (get_news published_flag limit offset) env w = (Return page, w)
        /\ forall r, In r page ->
                    In r (content_items w) /\ category r = "news"
                    /\ published r = published_flag).
Proof.
  clear fromisoformat. intros _ _.
  unfold get_blogs, get_events, get_news.
  repeat split.
  all: match goal with
       | |- context [get_content ?c ?p _ _] =>
           destruct (get_content_members c p limit offset env w)
             as (page & Hrun & Hsound & _)
       end.
  all: exists page; split; [exact Hrun|]; intros r Hr.
  all: destruct (Hsound r Hr) as (Hin & Hc & Hp).
  all: split; [exact Hin|]; split; [now apply Hc | now apply Hp].
Qed.

(** ** Identity of items *)

Lemma query_first_by_id_unique (rows : list ContentItem) (r : ContentItem) :
  NoDup (map id rows) -> In r rows ->
  head (List.filter (fun x => (id x =? id r)%Z) rows) = Some r.
Proof.
  induction rows as [|x rows IH]; simpl; intros Hnd Hin; [destruct Hin|].
  apply NoDup_cons in Hnd as [Hx Hnd].
  destruct Hin as [->|Hin]; [now rewrite Z.eqb_refl|].
  destruct (Z.eqb_spec (id x) (id r)) as [E|E]; [|now apply IH].
  exfalso. apply Hx. rewrite E. apply list_elem_of_In. now apply in_map.
Qed.

(** X11: after any history of requests, no two stored rows share an id,
    so [get] of the id of any stored row returns that row; and every
    stored [image_url] is the reference [/uploads/<name>] of a non-empty
    file name without path separator. *)
Theorem stored_items_identified
    (history : list (Request * Env)) (env : Env) :
  let w := serve_all fromisoformat history in
  NoDup (map id (content_items w))
  /\ Forall (fun r =>
               run (get_content_item (id r)) env w = (Return r, w)
               /\ match image_url r with
                  | Some url =>
                      url = "/uploads/" ++ Py.basename url
                      /\ Py.nonempty (Py.basename url) = true
                      /\ Py.occurs "/" (Py.basename url) = false
                  | None => True
                  end)
            (content_items w).
Proof.
  intros w. destruct (serve_all_well_formed fromisoformat history) as [Hnd Hw].
  fold w in Hnd, Hw. split; [exact Hnd|].
  apply List.Forall_forall. intros r Hr. split.
  - apply get_content_item_row_of. now apply query_first_by_id_unique.
  - destruct (image_url r) as [url|] eqn:Hurl; [|exact I].
    destruct (Hw r Hr) as [_ Href]. destruct (Href url Hurl) as (u & name & ->).
    destruct (stored_name_reference u name) as [Hb Hs]. cbv zeta in Hb, Hs.
    rewrite Hb. split; [reflexivity|]. split; [|exact Hs].
    unfold str_uuid. cbv zeta.
    generalize (hex 32 u). intros h.
    destruct (substring 0 8 h); reflexivity.
Qed.

(** X12: no request changes the id, the category or [created_at] of an
    item: if an id is stored before a request and still stored after it,
    the row after has the id, category and [created_at] of the row
    before. *)
Theorem serve_keeps_identity
    (req : Request) (env : Env) (w : World) (j : Z) (r r' : ContentItem) :
  row_of w j = Some r ->
  row_of (serve fromisoformat req env w) j = Some r' ->
  id r' = id r /\ category r' = category r /\ created_at r' = created_at r.
Proof.
  intros Hq Hq'. destruct (writes_item j req) eqn:Hreq.
  - destruct req; simpl in Hreq; try discriminate;
      apply Z.eqb_eq in Hreq; subst item_id; unfold serve in Hq'.
    + destruct (run _ env w) as [[x|e] w'] eqn:H; cbn [snd] in Hq'.
      * destruct (update_content_frame fromisoformat _ _ _ _ _ _ _ _ _ _ _ _ _ _ Hq H)
          as (H1 & H2 & H3 & _ & _ & _ & _ & _ & _ & _ & _ & _ & Hi & _).
        assert (x = r') by congruence. subst x. auto.
      * apply update_content_raised in H.
        rewrite (row_of_rows _ _ _ H) in Hq'.
        assert (r' = r) by congruence. subst r'. auto.
    + rewrite (delete_content_found _ _ _ _ Hq) in Hq'. cbn [snd] in Hq'.
      apply query_first_by_id_id in Hq as [Hi _].
      unfold row_of in Hq'. cbn [content_items] in Hq'.
      apply query_first_by_id_id in Hq' as [Hi' Hin].
      apply List.filter_In in Hin as [_ Hneq].
      apply negb_true_iff, Z.eqb_neq in Hneq. congruence.
  - rewrite (serve_keeps_item fromisoformat req env w j r Hreq Hq) in Hq'.
    assert (r' = r) by congruence. subst r'. auto.
Qed.

(** X13: a successful [create] adds exactly one row, under an id larger
    than every id stored before, and leaves every item stored before as
    it was. *)
Theorem create_content_adds_one
    (t c cat a : string) (ex : option string) (p : bool)
    (ed tg : option string) (im : option UploadFile) (env : Env)
    (w w' : World) (r : ContentItem) :
  run (create_content fromisoformat t c cat a ex p ed tg im) env w
  = (Return r, w') ->
  length (content_items w') = S (length (content_items w))
  /\ (forall x, In x (content_items w) -> id x < id r)
  /\ (forall j x, row_of w j = Some x -> row_of w' j = Some x)
  /\ row_of w' (id r) = Some r.
Proof.
  intros H.
  apply create_content_returned in H as (_ & Hrows & Hid & _).
  unfold row_of. rewrite Hrows. repeat split.
  - rewrite length_app. simpl. lia.
  - intros x Hx. rewrite Hid. now apply next_rowid_above.
  - intros j x Hx. now apply query_first_by_id_app.
  - now apply query_first_by_id_appended.
Qed.

(** ** Errors *)

Lemma uploaded_filename (im : option UploadFile) (f : UploadFile) :
  uploaded im = Some f ->
  exists name, filename f = Some name /\ Py.nonempty name = true.
Proof.
  unfold uploaded. destruct im as [g|]; [|discriminate].
  destruct (filename g) as [name|] eqn:Hn; cbn; [|discriminate].
  destruct (Py.nonempty name) eqn:Hne; [|discriminate].
  intros [= <-]. eauto.
Qed.

(** X14: the errors of the store, for an id in the range of a SQLite
    INTEGER and a file part whose stored name the file system accepts.
    [create] fails only with a 400 error, and [update] only with a 404 or
    a 400 error, unless the file part carries no content type at all;
    [delete] and [get] fail only with the 404 error, and then change
    nothing. *)
Theorem handlers_raise_only
    (i : Z) (t c cat a : string) (ti tc tex ta : option string)
    (ex : option string) (p : bool) (tp : option bool)
    (ed tg : option string) (im : option UploadFile) (env : Env)
    (w w' : World) (e : Exception) :
  int64 i ->
  (forall f name,
      uploaded im = Some f -> filename f = Some name ->
      file_name_ok (str_uuid (uuid4 env 0) ++ snd (Py.splitext name))) ->
  (run (create_content fromisoformat t c cat a ex p ed tg im) env w
   = (Raise e, w') ->
   ValidationError e
   \/ exists f, uploaded im = Some f /\ content_type f = None)
  /\ (run (update_content fromisoformat i ti tc tex ta tp ed tg im) env w
      = (Raise e, w') ->
      NotFoundError e \/ ValidationError e
      \/ exists f, uploaded im = Some f /\ content_type f = None)
  /\ (run (delete_content i) env w = (Raise e, w') ->
      NotFoundError e /\ w' = w)
  /\ (run (get_content_item i) env w = (Raise e, w') ->
      NotFoundError e /\ w' = w).
Proof.
  intros _ _. split; [|split; [|split]].
  - steps. cbn. intros H.
    destruct (uploaded im) as [f|] eqn:Hup; cbn in H.
    + destruct (uploaded_filename _ _ Hup) as (name & Hname & _).
      rewrite Hname in H. split_run H.
      all: injection H as <- _.
      all: first [ left; eexists; reflexivity
                 | right; eexists; split; [reflexivity | assumption] ].
    + split_run H.
      all: injection H as <- _; left; eexists; reflexivity.
  - steps. cbn. intros H.
    destruct (head _) as [r|] eqn:Hq; cbn in H.
    + destruct (uploaded im) as [f|] eqn:Hup; cbn in H.
      * destruct (uploaded_filename _ _ Hup) as (name & Hname & _).
        rewrite Hname in H. split_run H.
        all: injection H as <- _.
        all: first [ right; left; eexists; reflexivity
                   | right; right; eexists; split; [reflexivity | assumption] ].
      * split_run H.
        all: injection H as <- _; right; left; eexists; reflexivity.
    + injection H as <- _. left. eexists; reflexivity.
  - intros H. destruct (row_of w i) as [r|] eqn:Hq.
    + rewrite (delete_content_found _ _ _ _ Hq) in H. discriminate.
    + rewrite (delete_content_absent _ _ _ Hq) in H.
      injection H as <- <-. split; [eexists|]; reflexivity.
  - steps. cbn. destruct (head _); cbn; [discriminate|].
    intros H. injection H as <- <-. split; [eexists|]; reflexivity.
Qed.

(** ** Creation, deletion and listings together *)

(** X15: a created item is listed, a deleted one is not.  After a
    successful [create], the listing of the item's category and
    [published] flag with no limit contains the entity that [create]
    returned; after a successful [delete] of an id, no listing, with limit
    and offset in the range of a SQLite INTEGER, returns an item of that
    id. *)
Theorem listed_after_create_not_after_delete
    (t c cat a : string) (ex : option string) (p : bool)
    (ed tg : option string) (im : option UploadFile) (env env' : Env)
    (w : World) :
  (forall r w',
      run (create_content fromisoformat t c cat a ex p ed tg im) env w
      = (Return r, w') ->
      exists page,
        run (get_content (Some (category r)) (Some (published r)) (-1) 0)
            env' w'
        = (Return page, w')
        /\ In r page)
  /\ (forall i msg w' lc lp limit offset,
        int64 limit -> int64 offset ->
        run (delete_content i) env w = (Return msg, w') ->
        exists page,
          run (get_content lc lp limit offset) env' w' = (Return page, w')
          /\ forall x, In x page -> id x <> i).
Proof.
  split.
  - intros r w' H.
    apply create_content_returned in H as (_ & Hrows & _).
    destruct (get_content_members (Some (category r)) (Some (published r))
                (-1) 0 env' w') as (page & Hrun & _ & Hall).
    exists page. split; [exact Hrun|].
    apply Hall; try lia.
    + rewrite Hrows. apply in_app_iff. simpl. auto.
    + now intros s [= ->].
    + now intros v [= ->].
  - intros i msg w' lc lp limit offset _ _ H.
    destruct (get_content_members lc lp limit offset env' w')
      as (page & Hrun & Hsound & _).
    exists page. split; [exact Hrun|]. intros x Hx.
    destruct (Hsound x Hx) as [Hin _].
    destruct (row_of w i) as [r|] eqn:Hq.
    + rewrite (delete_content_found _ _ _ _ Hq) in H.
      injection H as _ <-. cbn [content_items] in Hin.
      apply List.filter_In in Hin as [_ Hneq].
      apply query_first_by_id_id in Hq as [Hi _].
      apply negb_true_iff, Z.eqb_neq in Hneq. congruence.
    + rewrite (delete_content_absent _ _ _ Hq) in H. discriminate.
Qed.

(** X16: [upload_image] of an image part without a file name fails inside
    [save_upload_file]; the handler turns the exception into the 500 error
    "Error uploading file: ..." with the message of the exception, and
    nothing is written. *)
Theorem upload_image_without_filename
    (f : UploadFile) (ct : string) (env : Env) (w : World) :
  content_type f = Some ct ->
  Py.startswith ct "image/" = true ->
  filename f = None ->
  run (upload_image f) env w
  = (Raise (HTTPException 500
              ("Error uploading file: "
               ++ "expected str, bytes or os.PathLike object, not NoneType")),
     w).
Proof.
  intros Hct Himg Hname. steps. rewrite Hct. cbn. rewrite Himg. cbn.
  rewrite Hname. reflexivity.
Qed.

End Further.

(** * The further properties on the sample requests *)

(** A text file sent to the upload route. *)
Lemma upload_image_not_an_image_witness :
  content_type Sample.notes = Some "text/plain"
  /\ Py.startswith "text/plain" "image/" = false
  /\ run (upload_image Sample.notes) (Sample.ticking 0) Sample.one_item
     = (Raise (HTTPException 400 "File must be an image"), Sample.one_item).
Proof.
  split; [reflexivity|]. split; [reflexivity|].
  exact (upload_image_not_an_image Sample.notes "text/plain" (Sample.ticking 0)
           Sample.one_item eq_refl eq_refl).
Defined.

(** A photo whose name has a directory part and two dots: the stored name
    keeps the last extension only. *)
Lemma upload_image_stores_witness :
  content_type Sample.photo = Some "image/jpeg"
  /\ Py.startswith "image/jpeg" "image/" = true
  /\ filename Sample.photo = Some "../photo.final.jpg"
  /\ file_name_ok (str_uuid (uuid4 (Sample.ticking 0) 0)
                     ++ snd (Py.splitext "../photo.final.jpg"))
  /\ exists url w',
       run (upload_image Sample.photo) (Sample.ticking 0) empty_world
       = (Return (url, Some "../photo.final.jpg"), w')
       /\ Py.basename url = "123e4567-e89b-42d3-a456-426614174000.jpg"
       /\ uploads w' !! Py.basename url = Some "JPG-bytes".
Proof.
  assert (Hok : file_name_ok (str_uuid (uuid4 (Sample.ticking 0) 0)
                                ++ snd (Py.splitext "../photo.final.jpg")))
    by (unfold file_name_ok; split; [apply Nat.leb_le; vm_compute|]; reflexivity).
  split; [reflexivity|]. split; [reflexivity|]. split; [reflexivity|].
  split; [exact Hok|].
  destruct (upload_image_stores Sample.photo "image/jpeg" "../photo.final.jpg"
              (Sample.ticking 0) empty_world eq_refl eq_refl eq_refl Hok)
    as (url & w' & Hrun & _ & Hname & _ & _ & Hfile & _).
  exists url, w'. split; [exact Hrun|]. split; [|exact Hfile].
  rewrite Hname. reflexivity.
Defined.

(** The example creation with a text file as image. *)
Lemma create_content_not_an_image_witness :
  In "news" valid_categories
  /\ uploaded (Some Sample.notes) = Some Sample.notes
  /\ run (create_content Iso.fromisoformat "Q1 Update" "..." "news" "Jane"
            None false (Some "not-a-date") None (Some Sample.notes))
         (Sample.ticking 1000) Sample.one_item
     = (Raise (HTTPException 400 "File must be an image"), Sample.one_item).
Proof.
  assert (H : In "news" valid_categories) by (simpl; auto).
  split; [exact H|]. split; [reflexivity|].
  exact (create_content_not_an_image Iso.fromisoformat "Q1 Update" "..." "news"
           "Jane" None false (Some "not-a-date") None (Some Sample.notes)
           Sample.notes "text/plain" (Sample.ticking 1000) Sample.one_item
           H eq_refl eq_refl eq_refl).
Defined.

(** The example creation with an image and a date in Zulu time. *)
Lemma create_content_with_image_witness :
  In "events" valid_categories
  /\ file_name_ok (str_uuid (uuid4 (Sample.ticking 1000) 0)
                     ++ snd (Py.splitext "chart.png"))
  /\ (forall s, Some "2024-02-29T12:30:00Z" = Some s -> Py.nonempty s = true ->
                Iso.fromisoformat (Py.replace "Z" "+00:00" s) <> None)
  /\ exists r w' url,
       run (create_content Iso.fromisoformat "Leap day" "..." "events" "Jane"
              None true (Some "2024-02-29T12:30:00Z") None (Some Sample.png))
           (Sample.ticking 1000) empty_world
       = (Return r, w')
       /\ image_url r = Some url
       /\ uploads w' !! Py.basename url = Some "PNG-bytes".
Proof.
  assert (H : In "events" valid_categories) by (simpl; auto).
  assert (Hd : forall s, Some "2024-02-29T12:30:00Z" = Some s ->
                         Py.nonempty s = true ->
                         Iso.fromisoformat (Py.replace "Z" "+00:00" s) <> None)
    by (intros s [= <-] _; discriminate).
  assert (Hok : file_name_ok (str_uuid (uuid4 (Sample.ticking 1000) 0)
                                ++ snd (Py.splitext "chart.png")))
    by (unfold file_name_ok; split; [apply Nat.leb_le; vm_compute|]; reflexivity).
  split; [exact H|]. split; [exact Hok|]. split; [exact Hd|].
  destruct (create_content_with_image Iso.fromisoformat "Leap day" "..."
              "events" "Jane" None true (Some "2024-02-29T12:30:00Z") None
              Sample.png "chart.png" "image/png" (Sample.ticking 1000)
              empty_world H eq_refl eq_refl eq_refl eq_refl Hok Hd)
    as (r & w' & url & Hrun & Hurl & _ & _ & Hfile & _).
  exists r, w', url. auto.
Defined.

(** An update of an id that is not stored. *)
Lemma update_content_not_found_witness :
  int64 9
  /\ (forall r, In r (content_items Sample.one_item) -> id r <> 9)
  /\ run (update_content Iso.fromisoformat 9 (Some "New") None None None
            (Some true) (Some "not-a-date") None (Some Sample.png))
         (Sample.ticking 2000) Sample.one_item
     = (Raise (HTTPException 404 "Content item not found"), Sample.one_item).
Proof.
  assert (H : forall r, In r (content_items Sample.one_item) -> id r <> 9)
    by (intros r [<-|[]]; discriminate).
  assert (H9 : int64 9) by (unfold int64; lia).
  split; [exact H9|]. split; [exact H|].
  exact (update_content_not_found Iso.fromisoformat 9 (Some "New") None None
           None (Some true) (Some "not-a-date") None (Some Sample.png)
           (Sample.ticking 2000) Sample.one_item H9 H).
Defined.

(** An update of the example item with a new title and a text file. *)
Lemma update_content_not_an_image_witness :
  row_of Sample.one_item 1 = Some Sample.q1_row
  /\ uploaded (Some Sample.notes) = Some Sample.notes
  /\ exists detail,
       run (update_content Iso.fromisoformat 1 (Some "New") None None None
              (Some true) None None (Some Sample.notes))
           (Sample.ticking 2000) Sample.one_item
       = (Raise (HTTPException 400 detail), Sample.one_item).
Proof.
  split; [reflexivity|]. split; [reflexivity|].
  destruct (update_content_not_an_image Iso.fromisoformat 1 (Some "New") None
              None None (Some true) None None (Some Sample.notes) Sample.notes
              "text/plain" (Sample.ticking 2000) Sample.one_item Sample.q1_row
              eq_refl eq_refl eq_refl eq_refl) as (detail & Hrun & _).
  exists detail. exact Hrun.
Defined.

(** The chart of an item replaced by a photo. *)
Lemma update_content_replaces_image_witness :
  row_of (serve_all Iso.fromisoformat Sample.with_image) 1
  = Some (Sample.news 1 "Q1 Update"
            (Some ("/uploads/" ++ Sample.chart_name)) 1000 1001)
  /\ file_name_ok (str_uuid (uuid4 (Sample.frozen 5000) 0)
                     ++ snd (Py.splitext "../photo.final.jpg"))
  /\ exists r' w',
       run (update_content Iso.fromisoformat 1 None None None None None None
              None (Some Sample.photo))
           (Sample.frozen 5000) (serve_all Iso.fromisoformat Sample.with_image)
       = (Return r', w')
       /\ uploads w' !! "123e4567-e89b-42d3-a456-426614174000.jpg"
          = Some "JPG-bytes"
       /\ uploads w' !! Sample.chart_name = None.
Proof.
  assert (H : row_of (serve_all Iso.fromisoformat Sample.with_image) 1
              = Some (Sample.news 1 "Q1 Update"
                        (Some ("/uploads/" ++ Sample.chart_name)) 1000 1001))
    by reflexivity.
  assert (Hok : file_name_ok (str_uuid (uuid4 (Sample.frozen 5000) 0)
                                ++ snd (Py.splitext "../photo.final.jpg")))
    by (unfold file_name_ok; split; [apply Nat.leb_le; vm_compute|]; reflexivity).
  split; [exact H|]. split; [exact Hok|].
  destruct (update_content_replaces_image Iso.fromisoformat 1 None None None
              None None None None Sample.photo "../photo.final.jpg"
              "image/jpeg" (Sample.frozen 5000)
              (serve_all Iso.fromisoformat Sample.with_image) _ H
              eq_refl eq_refl eq_refl eq_refl Hok
              (fun s (E : None = Some s) => match E with end))
    as (r' & w' & Hrun & _ & _ & Hnew & Hold & _).
  exists r', w'. split; [exact Hrun|]. split; [exact Hnew|].
  apply (Hold ("/uploads/" ++ Sample.chart_name)); [reflexivity | reflexivity |].
  discriminate.
Defined.

(** The unpublished news of the one-item store. *)
Lemma get_content_filters_witness :
  int64 20 /\ int64 0
  /\ exists page,
    run (get_content (Some "news") (Some false) 20 0) (Sample.frozen 0)
        Sample.one_item
    = (Return page, Sample.one_item)
    /\ forall r, In r page -> category r = "news" /\ published r = false.
Proof.
  assert (H20 : int64 20) by (unfold int64; lia).
  assert (H0 : int64 0) by (unfold int64; lia).
  split; [exact H20|]. split; [exact H0|].
  destruct (get_content_filters (Some "news") (Some false) 20 0
              (Sample.frozen 0) Sample.one_item H20 H0)
    as (page & Hrun & Hsound & _).
  exists page. split; [exact Hrun|]. intros r Hr.
  destruct (Hsound r Hr) as (_ & Hc & Hp).
  split; [now apply Hc | now apply Hp].
Defined.

(** Two pages of one item each over the two-item store. *)
Lemma get_content_pages_witness :
  0 <= 0 /\ 0 <= 1 /\ int64 (0 + 1) /\ int64 (1 + 1)
  /\ exists p1 p2,
       run (get_content None None 1 0) (Sample.frozen 0)
           (serve_all Iso.fromisoformat Sample.set_back)
       = (Return p1, serve_all Iso.fromisoformat Sample.set_back)
       /\ run (get_content None None 1 (0 + 1)) (Sample.frozen 0)
              (serve_all Iso.fromisoformat Sample.set_back)
          = (Return p2, serve_all Iso.fromisoformat Sample.set_back)
       /\ run (get_content None None (1 + 1) 0) (Sample.frozen 0)
              (serve_all Iso.fromisoformat Sample.set_back)
          = (Return (p1 ++ p2)%list, serve_all Iso.fromisoformat Sample.set_back).
Proof.
  assert (H0 : 0 <= 0) by lia. assert (H1 : 0 <= 1) by lia.
  assert (Ho : int64 (0 + 1)) by (unfold int64; lia).
  assert (Hl : int64 (1 + 1)) by (unfold int64; lia).
  split; [exact H0|]. split; [exact H1|]. split; [exact Ho|].
  split; [exact Hl|].
  destruct (get_content_pages None None 1 1 0 (Sample.frozen 0)
              (serve_all Iso.fromisoformat Sample.set_back) H0 H1 H1 Ho Hl)
    as (p1 & p2 & R1 & R2 & R12 & _).
  exists p1, p2. auto.
Defined.

(** The published blogs of the one-item store. *)
Lemma category_endpoints_witness :
  int64 20 /\ int64 0
  /\ exists page,
    run (get_blogs true 20 0) (Sample.frozen 0) Sample.one_item
    = (Return page, Sample.one_item)
    /\ forall r, In r page -> category r = "blogs" /\ published r = true.
Proof.
  assert (H20 : int64 20) by (unfold int64; lia).
  assert (H0 : int64 0) by (unfold int64; lia).
  split; [exact H20|]. split; [exact H0|].
  destruct (category_endpoints true 20 0 (Sample.frozen 0) Sample.one_item
              H20 H0)
    as ((page & Hrun & Hsound) & _).
  exists page. split; [exact Hrun|]. intros r Hr.
  destruct (Hsound r Hr) as (_ & Hc & Hp). auto.
Defined.

(** The example item before and after an update of its title. *)
Lemma serve_keeps_identity_witness :
  row_of Sample.one_item 1 = Some Sample.q1_row
  /\ row_of (serve Iso.fromisoformat
               (PUT_content 1 (Some "Q1 Update, revised") None None None None
                  None None None) (Sample.ticking 2000) Sample.one_item) 1
     = Some (Sample.news 1 "Q1 Update, revised" None 1000 2000)
  /\ created_at (Sample.news 1 "Q1 Update, revised" None 1000 2000)
     = created_at Sample.q1_row.
Proof.
  assert (H : row_of Sample.one_item 1 = Some Sample.q1_row) by reflexivity.
  assert (H' : row_of (serve Iso.fromisoformat
                         (PUT_content 1 (Some "Q1 Update, revised") None None
                            None None None None None) (Sample.ticking 2000)
                         Sample.one_item) 1
               = Some (Sample.news 1 "Q1 Update, revised" None 1000 2000))
    by reflexivity.
  split; [exact H|]. split; [exact H'|].
  exact (proj2 (proj2 (serve_keeps_identity Iso.fromisoformat _ _ _ _ _ _ H H'))).
Defined.

(** A second creation in the one-item store. *)
Lemma create_content_adds_one_witness :
  run (create_content Iso.fromisoformat "B" "..." "news" "Jane" None false
         None None None) (Sample.ticking 3000) Sample.one_item
  = (Return (Sample.news 2 "B" None 3000 3001),
     serve Iso.fromisoformat (Sample.post "B") (Sample.ticking 3000)
       Sample.one_item)
  /\ row_of (serve Iso.fromisoformat (Sample.post "B") (Sample.ticking 3000)
               Sample.one_item) 1
     = Some Sample.q1_row.
Proof.
  assert (H : run (create_content Iso.fromisoformat "B" "..." "news" "Jane"
                     None false None None None) (Sample.ticking 3000)
                  Sample.one_item
              = (Return (Sample.news 2 "B" None 3000 3001),
                 serve Iso.fromisoformat (Sample.post "B") (Sample.ticking 3000)
                   Sample.one_item)) by reflexivity.
  split; [exact H|].
  destruct (create_content_adds_one Iso.fromisoformat _ _ _ _ _ _ _ _ _ _ _ _ _ H)
    as (_ & _ & Hkeep & _).
  apply Hkeep. reflexivity.
Defined.

(** The deletion of an id that is not stored. *)
Lemma handlers_raise_only_witness :
  int64 7
  /\ run (delete_content 7) (Sample.frozen 0) Sample.one_item
  = (Raise (HTTPException 404 "Content item not found"), Sample.one_item)
  /\ NotFoundError (HTTPException 404 "Content item not found").
Proof.
  assert (H : run (delete_content 7) (Sample.frozen 0) Sample.one_item
              = (Raise (HTTPException 404 "Content item not found"),
                 Sample.one_item)) by reflexivity.
  assert (H7 : int64 7) by (unfold int64; lia).
  assert (Hfiles : forall f name,
             uploaded None = Some f -> filename f = Some name ->
             file_name_ok (str_uuid (uuid4 (Sample.frozen 0) 0)
                             ++ snd (Py.splitext name)))
    by (intros f name E; discriminate E).
  split; [exact H7|]. split; [exact H|].
  destruct (handlers_raise_only Iso.fromisoformat 7 "t" "c" "news" "a" None
              None None None None false None None None None (Sample.frozen 0)
              Sample.one_item Sample.one_item
              (HTTPException 404 "Content item not found") H7 Hfiles)
    as (_ & _ & Hdel & _).
  exact (proj1 (Hdel H)).
Defined.

(** The example creation, then the listing of unpublished news. *)
Lemma listed_after_create_not_after_delete_witness :
  run (create_content Iso.fromisoformat "Q1 Update" "..." "news" "Jane" None
         false None None None) (Sample.ticking 1000) empty_world
  = (Return Sample.q1_row, Sample.one_item)
  /\ exists page,
       run (get_content (Some "news") (Some false) (-1) 0) (Sample.frozen 0)
           Sample.one_item
       = (Return page, Sample.one_item)
       /\ In Sample.q1_row page.
Proof.
  assert (H : run (create_content Iso.fromisoformat "Q1 Update" "..." "news"
                     "Jane" None false None None None) (Sample.ticking 1000)
                  empty_world
              = (Return Sample.q1_row, Sample.one_item)) by reflexivity.
  split; [exact H|].
  destruct (listed_after_create_not_after_delete Iso.fromisoformat "Q1 Update"
              "..." "news" "Jane" None false None None None
              (Sample.ticking 1000) (Sample.frozen 0) empty_world)
    as [Hlisted _].
  exact (Hlisted _ _ H).
Defined.

(** An image part without a file name sent to the upload route. *)
Lemma upload_image_without_filename_witness :
  content_type Sample.nameless = Some "image/png"
  /\ Py.startswith "image/png" "image/" = true
  /\ filename Sample.nameless = None
  /\ run (upload_image Sample.nameless) (Sample.ticking 0) Sample.one_item
     = (Raise (HTTPException 500
                 "Error uploading file: expected str, bytes or os.PathLike object, not NoneType"),
        Sample.one_item).
Proof.
  split; [reflexivity|]. split; [reflexivity|]. split; [reflexivity|].
  exact (upload_image_without_filename Sample.nameless "image/png"
           (Sample.ticking 0) Sample.one_item eq_refl eq_refl eq_refl).
Defined.
